(** * compute_sales.py: sales totals against a price catalogue

    A shallow embedding of [src/compute_sales.py] and the properties of its
    four stages: the loader ([load_json]), the catalogue indexer
    ([build_price_map]), the sales aggregator ([compute_total_sales]) and the
    reporter ([format_results], [write_results]), chained by [main].

    Python values are the ones [json.load] produces; a Python [float] is an
    IEEE 754 binary64 number, modelled by Rocq's primitive floats; a Python
    [int] is an unbounded integer, modelled by [Z]; a [dict] is a finite map
    ([gmap]); printing and the output file are effects on an explicit
    [world]; exceptions are an explicit [outcome].

    What the model takes from the environment: the result of reading each
    input path ([read_result]), the two readings of the clock, and that
    [print] and the write of the results file succeed. Python's [print] can
    raise when the text of a value cannot be made or encoded for the
    standard output, and the write can fail; the program catches neither,
    and such runs are outside the model: a theorem that gives the result of
    a run says what the run does on a standard output and a directory that
    take what is written. The text of a diagnostic is not modelled, only
    which diagnostic it is and the values it shows. *)

From Stdlib Require Import ZArith String Ascii List Floats Permutation.
From stdpp Require Import gmap strings list fin_maps pretty.

#[local] Set Warnings "-register-all,-inexact-float".
#[local] Open Scope string_scope.
#[local] Open Scope Z_scope.

(** ** Values *)

(** What [json.load] returns: [None], [bool], [int], [float], [str], [list]
    and [dict] with string keys. A [string] holds the UTF-8 bytes of the
    Python [str] (a [str] with an unpaired surrogate has none and is outside
    the model). *)
Inductive pyval : Type :=
| PNone
| PBool (b : bool)
| PInt (z : Z)
| PFloat (f : float)
| PStr (s : string)
| PList (l : list pyval)
| PDict (d : gmap string pyval).

(** The exceptions the conversions [int(...)] and [float(...)] raise. *)
Inductive exn : Type := TypeError | ValueError | OverflowError.

(** A call either returns or raises. *)
Inductive outcome (A : Type) : Type :=
| Return (a : A)
| Raise (e : exn).
Arguments Return {A} a.
Arguments Raise {A} e.

(** ** The Python builtins the program calls *)
Module Py.

(** [int(s)] and [float(s)] on a [str] parse a literal (after stripping
    blanks; digits may be any Unicode decimal digits) and raise [ValueError]
    on anything else. The program only depends on which of the two happens,
    so the parsers are an interface: [None] stands for [ValueError]. *)
Class StrConv : Type := {
  int_of_str : string -> option Z;
  float_of_str : string -> option float
}.

(** [d.get(key)]: the value bound to [key], [None] when there is none. *)
Definition get (d : gmap string pyval) (key : string) : pyval :=
  default PNone (d !! key).

(** [isinstance(v, list)] *)
Definition is_list (v : pyval) : bool :=
  match v with PList _ => true | _ => false end.

(** [v is None] *)
Definition is_none (v : pyval) : bool :=
  match v with PNone => true | _ => false end.

(** *** [str.strip()] *)

Definition bytes (l : list nat) : string :=
  string_of_list_ascii (map ascii_of_nat l).

(** The characters [str.isspace] accepts, in UTF-8: U+0009..U+000D,
    U+001C..U+0020, U+0085, U+00A0, U+1680, U+2000..U+200A, U+2028, U+2029,
    U+202F, U+205F and U+3000. *)
Definition whitespace : list string :=
  map bytes
    ([[9]; [10]; [11]; [12]; [13]; [28]; [29]; [30]; [31]; [32];
      [194; 133]; [194; 160]; [225; 154; 128]]
     ++ map (fun k => [226; 128; k])
          [128; 129; 130; 131; 132; 133; 134; 135; 136; 137; 138]
     ++ [[226; 128; 168]; [226; 128; 169]; [226; 128; 175];
         [226; 129; 159]; [227; 128; 128]])%nat%list.

(** [s] without the pattern of [pats] it starts with, if it starts with one. *)
Fixpoint drop_first (pats : list string) (s : string) : option string :=
  match pats with
  | [] => None
  | p :: pats' =>
      if String.prefix p s
      then Some (substring (String.length p) (String.length s - String.length p) s)
      else drop_first pats' s
  end.

(** Drops leading patterns, at most [n] of them. *)
Fixpoint drop_leading (n : nat) (pats : list string) (s : string) : string :=
  match n with
  | O => s
  | S n' =>
      match drop_first pats s with
      | Some s' => drop_leading n' pats s'
      | None => s
      end
  end.

Definition lstrip (s : string) : string :=
  drop_leading (String.length s) whitespace s.

Definition rstrip (s : string) : string :=
  String.rev (drop_leading (String.length s) (map String.rev whitespace) (String.rev s)).

Definition strip (s : string) : string := rstrip (lstrip s).

(** *** Numbers *)

(** The binary64 number nearest to an integer (ties to even); infinite when
    the integer is beyond the range. *)
Definition nearest_float (z : Z) : float :=
  SF2Prim (binary_normalize 53 1024 z 0 false).

(** Conversion of an [int] to a C double, as [float(n)] and [x * n] do it:
    [OverflowError] when the rounded value does not fit. *)
Definition float_of_int (z : Z) : outcome float :=
  let f := nearest_float z in
  if is_infinity f then Raise OverflowError else Return f.

(** [int(x)] on a [float]: truncation towards zero. *)
Definition int_of_float (f : float) : outcome Z :=
  match Prim2SF f with
  | S754_zero _ => Return 0
  | S754_nan => Raise ValueError
  | S754_infinity _ => Raise OverflowError
  | S754_finite s m e =>
      let a := if 0 <=? e then Z.pos m * 2 ^ e else Z.pos m / 2 ^ (- e) in
      Return (if s then - a else a)
  end.

Section Conversions.
Context `{StrConv}.

(** [int(v)] *)
Definition to_int (v : pyval) : outcome Z :=
  match v with
  | PNone => Raise TypeError
  | PBool b => Return (if b then 1 else 0)
  | PInt z => Return z
  | PFloat f => int_of_float f
  | PStr s =>
      match int_of_str s with Some z => Return z | None => Raise ValueError end
  | PList _ | PDict _ => Raise TypeError
  end.

(** [float(v)] *)
Definition to_float (v : pyval) : outcome float :=
  match v with
  | PNone => Raise TypeError
  | PBool b => Return (if b then 1%float else 0%float)
  | PInt z => float_of_int z
  | PFloat f => Return f
  | PStr s =>
      match float_of_str s with Some f => Return f | None => Raise ValueError end
  | PList _ | PDict _ => Raise TypeError
  end.

End Conversions.

(** [x * n] for a [float] [x] and an [int] [n]: [n] is converted first. *)
Definition mul_int (x : float) (n : Z) : outcome float :=
  match float_of_int n with
  | Return y => Return (x * y)%float
  | Raise e => Raise e
  end.

(** *** Text *)

(** The line feed. *)
Definition nl : string := String (ascii_of_nat 10) "".

(** The decimal text of an [int]: what [str(n)] returns when it returns
    (see [str] below for when it does). *)
Definition str_of_int (n : Z) : string := pretty n.

(** The conversion of an [int] to text as [str(n)] and an f-string field
    [{n}] make it: the decimal text, and [ValueError] when [n] has more than
    4300 digits ([sys.int_info.default_max_str_digits], the default limit of
    Python 3.11; a sign does not count). *)
Definition str (n : Z) : outcome string :=
  if Z.abs n <? 10 ^ 4300 then Return (str_of_int n) else Raise ValueError.

(** The last [k] decimal digits of [n], most significant first. *)
Fixpoint digits (k : nat) (n : Z) : string :=
  match k with
  | O => ""
  | S k' =>
      digits k' (n / 10) +:+ String (ascii_of_nat (48 + Z.to_nat (n mod 10))) ""
  end.

(** The integer nearest to [m * 2 ^ e], ties to the even one. *)
Definition round_half_even (m e : Z) : Z :=
  if 0 <=? e then m * 2 ^ e
  else
    let d := 2 ^ (- e) in
    let q := m / d in
    match 2 * (m mod d) ?= d with
    | Lt => q
    | Gt => q + 1
    | Eq => if Z.even q then q else q + 1
    end.

(** A sign and the magnitude [n / 10 ^ p] written with [p] decimals. *)
Definition fixed (p : nat) (negative : bool) (n : Z) : string :=
  (if negative then "-" else "")
  +:+ pretty (n / 10 ^ Z.of_nat p)
  +:+ match p with O => "" | S _ => "." +:+ digits p n end.

(** [format(x, ".pf")]: the exact value of [x] rounded to [p] decimals (ties
    to even), with the sign of [x] even when the digits are all zero. *)
Definition format_fixed (p : nat) (x : float) : string :=
  match Prim2SF x with
  | S754_nan => "nan"
  | S754_infinity s => if s then "-inf" else "inf"
  | S754_zero s => fixed p s 0
  | S754_finite s m e => fixed p s (round_half_even (Z.pos m * 10 ^ Z.of_nat p) e)
  end.

End Py.

(** ** Effects: standard output and the file system *)

(** One call of [print]. The diagnostics carry the values their text is
    built from; [Text] is a call that prints a given text. *)
Inductive message : Type :=
| FileNotFound (path : string)
| InvalidJSON (path exc : string)
| CannotRead (path exc : string)
| CatalogNotList
| CatalogItemNotObject (item : pyval)
| CatalogItemNoTitle (item : pyval)
| InvalidPrice (title : string) (price : pyval)
| SalesNotList
| SaleNotObject (record : pyval)
| SaleNoProduct (record : pyval)
| InvalidQuantity (product : string) (quantity : pyval)
| NegativeQuantity (product : string) (qty : Z)
| UnknownProduct (product : string)
| InputsNotLoaded
| Usage
| Text (text : string).

(** What the program changes: the lines printed so far, and the text files
    it has written, by path. *)
Record world : Type := World {
  stdout : list message;
  disk : gmap string string
}.

(** A computation that prints and writes, and returns or raises. *)
Definition io (A : Type) : Type := world -> outcome A * world.

#[global] Instance io_ret : MRet io := fun A a w => (Return a, w).

#[global] Instance io_bind : MBind io := fun A B f m w =>
  match m w with
  | (Return a, w') => f a w'
  | (Raise e, w') => (Raise e, w')
  end.

Definition raise {A : Type} (e : exn) : io A := fun w => (Raise e, w).

(** The world after the messages [ms] are printed. *)
Definition emit (ms : list message) (w : world) : world :=
  World (stdout w ++ ms) (disk w).

Definition print (m : message) : io unit := fun w => (Return tt, emit [m] w).

(** [for x in l: s = body(s, x)] *)
Fixpoint for_each {S A : Type} (body : S -> A -> io S) (l : list A) (s : S) : io S :=
  match l with
  | [] => mret s
  | x :: l' => s' ← body s x; for_each body l' s'
  end.

(** What opening a path and parsing its content as JSON comes to. *)
Inductive read_result : Type :=
| Parsed (v : pyval)
| FileNotFoundError
| JSONDecodeError (exc : string)
| OtherException (exc : string).

(** ** The program *)

Section Program.
Context `{Py.StrConv}.

(** The inputs as the run finds them: the result of reading each path. Both
    inputs are read before the output file is written. *)
Variable inputs : string -> read_result.

Definition load_json (path : string) : io pyval :=
  match inputs path with
  | Parsed v => mret v
  | FileNotFoundError => print (FileNotFound path);; mret PNone
  | JSONDecodeError exc => print (InvalidJSON path exc);; mret PNone
  | OtherException exc => print (CannotRead path exc);; mret PNone
  end.

(** [v] when it is a [str] that is not blank:
    the negation of [not isinstance(v, str) or v.strip() == ""]. *)
Definition name_of (v : pyval) : option string :=
  match v with
  | PStr s => if String.eqb (Py.strip s) "" then None else Some s
  | _ => None
  end.

(** The body of the loop of [build_price_map]. *)
Definition add_price (prices : gmap string float) (item : pyval) : io (gmap string float) :=
  match item with
  | PDict d =>
      let title := Py.get d "title" in
      let price := Py.get d "price" in
      match name_of title with
      | None => print (CatalogItemNoTitle item);; mret prices
      | Some title =>
          match Py.to_float price with
          | Return price_value => mret (<[title := price_value]> prices)
          | Raise TypeError | Raise ValueError =>
              print (InvalidPrice title price);; mret prices
          | Raise e => raise e
          end
      end
  | _ => print (CatalogItemNotObject item);; mret prices
  end.

Definition build_price_map (catalog : pyval) : io (gmap string float) :=
  match catalog with
  | PList items => for_each add_price items ∅
  | _ => print CatalogNotList;; mret ∅
  end.

(** The body of the loop of [compute_total_sales], on [(total, errors)]. *)
Definition add_sale (prices : gmap string float) (acc : float * Z) (record : pyval)
  : io (float * Z) :=
  let '(total, errors) := acc in
  match record with
  | PDict d =>
      let product := Py.get d "Product" in
      let quantity := Py.get d "Quantity" in
      match name_of product with
      | None => print (SaleNoProduct record);; mret (total, errors + 1)
      | Some product =>
          match Py.to_int quantity with
          | Return qty =>
              if qty <? 0
              then print (NegativeQuantity product qty);; mret (total, errors + 1)
              else
                match prices !! product with
                | None => print (UnknownProduct product);; mret (total, errors + 1)
                | Some price =>
                    match Py.mul_int price qty with
                    | Return amount => mret ((total + amount)%float, errors)
                    | Raise e => raise e
                    end
                end
          | Raise TypeError | Raise ValueError =>
              print (InvalidQuantity product quantity);; mret (total, errors + 1)
          | Raise e => raise e
          end
      end
  | _ => print (SaleNotObject record);; mret (total, errors + 1)
  end.

Definition compute_total_sales (prices : gmap string float) (sales : pyval)
  : io (float * Z) :=
  match sales with
  | PList records => for_each (add_sale prices) records (0%float, 0)
  | _ => print SalesNotList;; mret (0%float, 1)
  end.

Definition format_results (total : float) (errors : Z) (elapsed : float) : string :=
  "=== Sales Results ===" +:+ Py.nl
  +:+ "Total Sales: $" +:+ Py.format_fixed 2 total +:+ Py.nl
  +:+ "Errors/Warnings: " +:+ Py.str_of_int errors +:+ Py.nl
  +:+ "Execution Time: " +:+ Py.format_fixed 6 elapsed +:+ " seconds" +:+ Py.nl.

(** A call of [format_results]: the field [{errors}] is converted by
    [Py.str], so the call raises when the count is beyond the conversion
    limit, and returns the text otherwise. ([main] passes a count that is at
    most the number of sales records.) *)
Definition format_results_call (total : float) (errors : Z) (elapsed : float)
  : outcome string :=
  match Py.str errors with
  | Return _ => Return (format_results total errors elapsed)
  | Raise e => Raise e
  end.

(** [open(filename, "w")] truncates; the text written is the whole content.
    The write is taken to succeed. *)
Definition write_results (text : string) (filename : string) : io unit :=
  fun w => (Return tt, World (stdout w) (<[filename := text]> (disk w))).

(** The default value of [filename]. *)
Definition results_file : string := "SalesResults.txt".

(** [clock] holds the two readings of [time.perf_counter()]. *)
Definition main (clock : float * float) (argv : list string) : io Z :=
  match argv with
  | [_; catalog_path; sales_path] =>
      let start := fst clock in
      catalog ← load_json catalog_path;
      sales ← load_json sales_path;
      if Py.is_none catalog || Py.is_none sales
      then print InputsNotLoaded;; mret 1
      else
        prices ← build_price_map catalog;
        '(total, errors) ← compute_total_sales prices sales;
        let elapsed := (snd clock - start)%float in
        let output := format_results total errors elapsed in
        print (Text output);;
        write_results output results_file;;
        mret 0
  | _ => print Usage;; mret 1
  end.

End Program.

(** The status the process exits with: [raise SystemExit(main())], and 1
    when an exception escapes. *)
Definition exit_status (r : outcome Z) : Z :=
  match r with
  | Return code => code
  | Raise _ => 1
  end.

(** ** The parsers on literals written in ASCII

    An instance of the interface, to run the program on concrete inputs:
    [int(s)] and [float(s)] for the literals whose digits are ASCII digits
    (Python also reads the other Unicode decimal digits, which are not
    modelled here). The theorems below hold for every instance. *)
Module Ascii_literals.

(** The blanks [int(s)] and [float(s)] skip around a literal: those of
    [str.strip] but for U+001C..U+001F, which they refuse. *)
Definition blanks : list string :=
  List.filter
    (fun p => negb (existsb (String.eqb p) (map Py.bytes [[28]; [29]; [30]; [31]]%nat)))
    Py.whitespace.

(** [s] without the blanks around it. *)
Definition trim (s : string) : string :=
  let t := Py.drop_leading (String.length s) blanks s in
  String.rev (Py.drop_leading (String.length t) (map String.rev blanks) (String.rev t)).

Definition digit_of (c : ascii) : option Z :=
  let n := Z.of_nat (nat_of_ascii c) in
  if (48 <=? n) && (n <=? 57) then Some (n - 48) else None.

(** The digits [s] starts with, single underscores between digits skipped,
    and what follows them. *)
Fixpoint read_digits (s : string) : list Z * string :=
  match s with
  | String c r =>
      match digit_of c with
      | Some d =>
          let '(ds, rest) :=
            match r with
            | String "_" (String c' _ as r') =>
                match digit_of c' with
                | Some _ => read_digits r'
                | None => ([], r)
                end
            | _ => read_digits r
            end in
          (d :: ds, rest)
      | None => ([], s)
      end
  | EmptyString => ([], s)
  end.

Definition value (ds : list Z) : Z := fold_left (fun n d => 10 * n + d) ds 0.

(** An optional sign: whether it is a minus, and what follows it. *)
Definition read_sign (s : string) : bool * string :=
  match s with
  | String "-" r => (true, r)
  | String "+" r => (false, r)
  | _ => (false, s)
  end.

Definition signed (negative : bool) (n : Z) : Z := if negative then - n else n.

(** More than 4300 digits are refused (the default limit of Python 3.11;
    signs and underscores do not count). *)
Definition int_of_str (s : string) : option Z :=
  let '(negative, body) := read_sign (trim s) in
  match read_digits body with
  | ((_ :: _) as ds, "") =>
      if (length ds <=? 4300)%nat then Some (signed negative (value ds)) else None
  | _ => None
  end.

Definition lower (c : ascii) : ascii :=
  let n := nat_of_ascii c in
  if ((65 <=? n) && (n <=? 90))%nat then ascii_of_nat (n + 32) else c.

Definition lowercase (s : string) : string :=
  string_of_list_ascii (map lower (list_ascii_of_string s)).

(** The binary64 number nearest to [m * 10 ^ e], for [0 <= m]. Below the
    decimal point the quotient is taken with 64 bits and a sticky bit, which
    rounds as the exact quotient does. *)
Definition nearest_decimal (m e : Z) : float :=
  if m =? 0 then 0%float
  else if 0 <=? e then Py.nearest_float (m * 10 ^ e)
  else
    let k := 10 ^ (- e) in
    let shift := Z.max 0 (Z.log2 k - Z.log2 m + 64) in
    let n := m * 2 ^ shift in
    let sticky := if n mod k =? 0 then 0 else 1 in
    SF2Prim (binary_normalize 53 1024 (2 * (n / k) + sticky) (- shift - 1) false).

(** The exponent part [e][sign]digits, when [s] starts with one. *)
Definition read_exponent (s : string) : Z * string :=
  match s with
  | String c r =>
      if String.eqb (lowercase (String c "")) "e" then
        let '(negative, body) := read_sign r in
        match read_digits body with
        | ((_ :: _) as ds, rest) => (signed negative (value ds), rest)
        | _ => (0, s)
        end
      else (0, s)
  | EmptyString => (0, s)
  end.

Definition float_of_str (s : string) : option float :=
  let '(negative, body) := read_sign (trim s) in
  let sign (x : float) := if negative then (- x)%float else x in
  let word := lowercase body in
  if String.eqb word "inf" || String.eqb word "infinity" then Some (sign infinity)
  else if String.eqb word "nan" then Some nan
  else
    let '(whole, r1) := read_digits body in
    let '(fraction, r2) :=
      match r1 with
      | String "." r => read_digits r
      | _ => ([], r1)
      end in
    let '(exponent, r3) := read_exponent r2 in
    match (whole ++ fraction)%list, r3 with
    | (_ :: _) as ds, "" =>
        Some (sign (nearest_decimal (value ds) (exponent - Z.of_nat (length fraction))))
    | _, _ => None
    end.

Definition conv : Py.StrConv :=
  {| Py.int_of_str := int_of_str; Py.float_of_str := float_of_str |}.

End Ascii_literals.

(** ** The loops, entry by entry

    Each loop body does one of three things with an entry: it warns and
    skips it, it keeps what the entry gives, or an exception escapes. *)
Inductive verdict (A : Type) : Type :=
| Skipped (m : message)
| Kept (a : A)
| Escapes (e : exn).
Arguments Skipped {A} m.
Arguments Kept {A} a.
Arguments Escapes {A} e.

Definition kept {A : Type} (v : verdict A) : option A :=
  match v with Kept a => Some a | _ => None end.

Definition skipped {A : Type} (v : verdict A) : option message :=
  match v with Skipped m => Some m | _ => None end.

Definition escapes {A : Type} (v : verdict A) : bool :=
  match v with Escapes _ => true | _ => false end.

(** A loop over verdicts, without the world: what it returns or raises, and
    the warnings in the order they are printed. *)
Fixpoint run_loop {S A B : Type} (judge : A -> verdict B) (skip : S -> S)
    (keep : S -> B -> S) (l : list A) (s : S) : outcome S * list message :=
  match l with
  | [] => (Return s, [])
  | x :: l' =>
      match judge x with
      | Skipped m =>
          let '(r, ms) := run_loop judge skip keep l' (skip s) in (r, m :: ms)
      | Kept b => run_loop judge skip keep l' (keep s b)
      | Escapes e => (Raise e, [])
      end
  end.

Definition float_sum_from (total : float) (amounts : list float) : float :=
  fold_left PrimFloat.add amounts total.

(** The sum of a list of floats, taken from the left, starting at 0.0. *)
Definition float_sum (amounts : list float) : float := float_sum_from 0 amounts.

Definition bind_price (prices : gmap string float) (entry : string * float)
  : gmap string float :=
  <[entry.1 := entry.2]> prices.

Definition count_error (acc : float * Z) : float * Z := (acc.1, acc.2 + 1).

Definition add_amount (acc : float * Z) (amount : float) : float * Z :=
  ((acc.1 + amount)%float, acc.2).

Section Verdicts.
Context `{Py.StrConv}.

(** What [add_price] does with a catalogue item. *)
Definition judge_item (item : pyval) : verdict (string * float) :=
  match item with
  | PDict d =>
      match name_of (Py.get d "title") with
      | None => Skipped (CatalogItemNoTitle item)
      | Some title =>
          match Py.to_float (Py.get d "price") with
          | Return price_value => Kept (title, price_value)
          | Raise TypeError | Raise ValueError =>
              Skipped (InvalidPrice title (Py.get d "price"))
          | Raise e => Escapes e
          end
      end
  | _ => Skipped (CatalogItemNotObject item)
  end.

(** What [add_sale] does with a sales record. *)
Definition judge_sale (prices : gmap string float) (record : pyval) : verdict float :=
  match record with
  | PDict d =>
      match name_of (Py.get d "Product") with
      | None => Skipped (SaleNoProduct record)
      | Some product =>
          match Py.to_int (Py.get d "Quantity") with
          | Return qty =>
              if qty <? 0 then Skipped (NegativeQuantity product qty)
              else
                match prices !! product with
                | None => Skipped (UnknownProduct product)
                | Some price =>
                    match Py.mul_int price qty with
                    | Return amount => Kept amount
                    | Raise e => Escapes e
                    end
                end
          | Raise TypeError | Raise ValueError =>
              Skipped (InvalidQuantity product (Py.get d "Quantity"))
          | Raise e => Escapes e
          end
      end
  | _ => Skipped (SaleNotObject record)
  end.

(** [build_price_map] without the world. *)
Definition price_run (catalog : pyval) : outcome (gmap string float) * list message :=
  match catalog with
  | PList items => run_loop judge_item id bind_price items ∅
  | _ => (Return ∅, [CatalogNotList])
  end.

(** [compute_total_sales] without the world. *)
Definition sales_run (prices : gmap string float) (sales : pyval)
  : outcome (float * Z) * list message :=
  match sales with
  | PList records =>
      run_loop (judge_sale prices) count_error add_amount records (0%float, 0)
  | _ => (Return (0%float, 1), [SalesNotList])
  end.

(** The warnings of a list of sales records. *)
Definition sale_warnings (prices : gmap string float) (records : list pyval)
  : list message :=
  omap (fun r => skipped (judge_sale prices r)) records.

(** The warnings of a list of catalogue items. *)
Definition catalog_warnings (items : list pyval) : list message :=
  omap (fun i => skipped (judge_item i)) items.

(** The amounts the loop of [compute_total_sales] adds, in input order. *)
Definition sold (prices : gmap string float) (records : list pyval) : list float :=
  omap (fun r => kept (judge_sale prices r)) records.

(** The entries the loop of [build_price_map] binds, in input order. *)
Definition bound (items : list pyval) : list (string * float) :=
  omap (fun i => kept (judge_item i)) items.

(** An exception escapes from one of the records. *)
Definition sales_abort (prices : gmap string float) (records : list pyval) : bool :=
  existsb (fun r => escapes (judge_sale prices r)) records.

(** An exception escapes from one of the items. *)
Definition catalog_aborts (items : list pyval) : bool :=
  existsb (fun i => escapes (judge_item i)) items.

(** [Quantity] is refused: it does not convert to an integer ([TypeError]
    or [ValueError]), or it converts to a negative one. *)
Definition quantity_refused (quantity : pyval) : bool :=
  match Py.to_int quantity with
  | Return qty => qty <? 0
  | Raise TypeError | Raise ValueError => true
  | Raise OverflowError => false
  end.

(** *** The catalogue, in the words of the specification *)

(** A valid catalogue entry: an object with a non-blank string [title] and a
    [price] that converts to a float. *)
Definition valid_entry (item : pyval) : option (string * float) :=
  match item with
  | PDict d =>
      match name_of (Py.get d "title"), Py.to_float (Py.get d "price") with
      | Some title, Return price => Some (title, price)
      | _, _ => None
      end
  | _ => None
  end.

(** The price of the last valid entry with the given title. *)
Definition last_price (title : string) (items : list pyval) : option float :=
  last (omap (fun item =>
                match valid_entry item with
                | Some (t, price) => if String.eqb t title then Some price else None
                | None => None
                end) items).

(** The items that are not valid entries. *)
Definition invalid_items (items : list pyval) : list pyval :=
  List.filter (fun i => negb (bool_decide (is_Some (valid_entry i)))) items.

(** The price is not an integer beyond the range of a float. *)
Definition price_in_range (item : pyval) : bool :=
  match item with
  | PDict d =>
      match Py.to_float (Py.get d "price") with
      | Raise OverflowError => false
      | _ => true
      end
  | _ => true
  end.

(** *** The sales, in the words of the specification *)

(** What a record that passes every check adds to the total: it is an
    object, [Product] is a non-blank string, [Quantity] converts to an
    integer that is not negative, and [Product] has a price. *)
Definition amount (prices : gmap string float) (record : pyval) : option float :=
  match record with
  | PDict d =>
      match name_of (Py.get d "Product"), Py.to_int (Py.get d "Quantity") with
      | Some product, Return qty =>
          if 0 <=? qty then
            match prices !! product with
            | Some price => Some (price * Py.nearest_float qty)%float
            | None => None
            end
          else None
      | _, _ => None
      end
  | _ => None
  end.

(** The same with [Product] only required to be a non-empty string. *)
Definition amount_nonempty (prices : gmap string float) (record : pyval)
  : option float :=
  match record with
  | PDict d =>
      match Py.get d "Product", Py.to_int (Py.get d "Quantity") with
      | PStr product, Return qty =>
          if negb (String.eqb product "") && (0 <=? qty) then
            match prices !! product with
            | Some price => Some (price * Py.nearest_float qty)%float
            | None => None
            end
          else None
      | _, _ => None
      end
  | _ => None
  end.

(** The amounts of the records that pass, in input order. *)
Definition amounts_by (amt : pyval -> option float) (records : list pyval)
  : list float :=
  omap amt records.

(** The number of records that do not pass. *)
Definition failures_by (amt : pyval -> option float) (records : list pyval) : Z :=
  Z.of_nat (length (List.filter (fun r => negb (bool_decide (is_Some (amt r)))) records)).

Definition contributions (prices : gmap string float) (records : list pyval)
  : list float :=
  amounts_by (amount prices) records.

Definition failures (prices : gmap string float) (records : list pyval) : Z :=
  failures_by (amount prices) records.

(** [Quantity] is an integer that is not negative, as the data model of the
    specification has it. *)
Definition natural_quantity (quantity : pyval) : bool :=
  match quantity with
  | PInt z => 0 <=? z
  | _ => false
  end.

(** The quantity is not an infinite float, and as an integer it is within
    the range of a float. *)
Definition quantity_in_range (record : pyval) : bool :=
  match record with
  | PDict d =>
      match Py.to_int (Py.get d "Quantity") with
      | Return qty => negb (is_infinity (Py.nearest_float qty))
      | Raise OverflowError => false
      | Raise _ => true
      end
  | _ => true
  end.

End Verdicts.

(** *** The loader and the run, in the words of the specification *)

(** The file is missing, unparseable or unreadable. *)
Definition load_fails (r : read_result) : bool :=
  match r with Parsed _ => false | _ => true end.

(** The diagnostic [load_json] prints for a path. *)
Definition load_diagnostic (path : string) (r : read_result) : list message :=
  match r with
  | Parsed _ => []
  | FileNotFoundError => [FileNotFound path]
  | JSONDecodeError exc => [InvalidJSON path exc]
  | OtherException exc => [CannotRead path exc]
  end.

(** The value [load_json] returns. *)
Definition loaded (r : read_result) : pyval :=
  match r with Parsed v => v | _ => PNone end.

(** Both payloads are there ([null] is taken for a failed load). *)
Definition both_loaded (catalog sales : pyval) : bool :=
  negb (Py.is_none catalog || Py.is_none sales).

(** No price of a catalogue payload is out of range. *)
Definition catalog_in_range `{Py.StrConv} (catalog : pyval) : bool :=
  match catalog with
  | PList items => forallb price_in_range items
  | _ => true
  end.

(** No quantity of a sales payload is out of range. *)
Definition sales_in_range `{Py.StrConv} (sales : pyval) : bool :=
  match sales with
  | PList records => forallb quantity_in_range records
  | _ => true
  end.

(** [main] without the world: what it returns or raises, the messages it
    prints, and the text it writes to the results file, if it does. *)
Definition main_run `{Py.StrConv} (inputs : string -> read_result)
    (clock : float * float) (argv : list string)
  : outcome Z * list message * option string :=
  match argv with
  | [_; catalog_path; sales_path] =>
      let diagnostics :=
        (load_diagnostic catalog_path (inputs catalog_path)
         ++ load_diagnostic sales_path (inputs sales_path))%list in
      let catalog := loaded (inputs catalog_path) in
      let sales := loaded (inputs sales_path) in
      if both_loaded catalog sales then
        match price_run catalog with
        | (Return prices, ms) =>
            match sales_run prices sales with
            | (Return (total, errors), ms') =>
                let output := format_results total errors (clock.2 - clock.1)%float in
                (Return 0, (diagnostics ++ ms ++ ms' ++ [Text output])%list, Some output)
            | (Raise e, ms') => (Raise e, (diagnostics ++ ms ++ ms')%list, None)
            end
        | (Raise e, ms) => (Raise e, (diagnostics ++ ms)%list, None)
        end
      else (Return 1, (diagnostics ++ [InputsNotLoaded])%list, None)
  | _ => (Return 1, [Usage], None)
  end.

(** The world after a run: its messages printed, its text written. *)
Definition after (ms : list message) (text : option string) (w : world) : world :=
  World (stdout w ++ ms)
        match text with
        | Some t => <[results_file := t]> (disk w)
        | None => disk w
        end.

(** *** The report, in the words of the specification *)

(** The lines, each followed by a line feed. *)
Definition unlines (lines : list string) : string :=
  fold_right (fun line rest => line +:+ Py.nl +:+ rest) "" lines.

Definition is_digit (c : ascii) : bool :=
  ((48 <=? nat_of_ascii c) && (nat_of_ascii c <=? 57))%nat.

(** [s] ends with a decimal point and exactly [p] digits. *)
Definition has_decimals (p : nat) (s : string) : Prop :=
  exists front decimals : string,
    s = front +:+ "." +:+ decimals
    /\ String.length decimals = p
    /\ forallb is_digit (list_ascii_of_string decimals) = true.

(** Neither a NaN nor an infinity. *)
Definition finite (x : float) : bool :=
  match Prim2SF x with
  | S754_zero _ | S754_finite _ _ _ => true
  | _ => false
  end.

(** The digit a character stands for. *)
Definition digit_value (c : ascii) : option Z :=
  if is_digit c then Some (Z.of_nat (nat_of_ascii c) - 48) else None.

(** The number a string of decimal digits stands for, read after [acc]. *)
Fixpoint digits_value (acc : Z) (s : string) : option Z :=
  match s with
  | EmptyString => Some acc
  | String c r =>
      match digit_value c with
      | Some d => digits_value (10 * acc + d) r
      | None => None
      end
  end.

(** The natural number a text stands for: digits, the first of which is a
    zero only when it is the whole text. *)
Definition natural_value (s : string) : option Z :=
  match s with
  | EmptyString => None
  | String c r =>
      if Ascii.eqb c "0" then
        match r with
        | EmptyString => Some 0
        | _ => None
        end
      else digits_value 0 s
  end.

(** The integer a decimal text stands for: a natural number, or a minus and a
    natural number that is not zero. *)
Definition decimal_value (s : string) : option Z :=
  match s with
  | EmptyString => None
  | String c r =>
      if Ascii.eqb c "-" then
        match natural_value r with
        | Some v => if 0 <? v then Some (- v) else None
        | None => None
        end
      else natural_value s
  end.

(** [s] is a sign, the text of [n / 10 ^ p], a point and the [p] digits of
    [n mod 10 ^ p]: the decimal writing of [n / 10 ^ p] with [p] decimals. *)
Definition writes_scaled (p : nat) (negative : bool) (n : Z) (s : string) : Prop :=
  exists whole decimals : string,
    s = (if negative then "-" else "") +:+ whole +:+ "." +:+ decimals
    /\ natural_value whole = Some (n / 10 ^ Z.of_nat p)
    /\ String.length decimals = p
    /\ digits_value 0 decimals = Some (n mod 10 ^ Z.of_nat p).

(** [n] is the integer nearest to [m * 2 ^ e * 10 ^ p], the even one of the
    two when they are equally near. *)
Definition nearest_scaled (p : nat) (m : positive) (e : Z) (n : Z) : Prop :=
  if 0 <=? e then n = Z.pos m * 10 ^ Z.of_nat p * 2 ^ e
  else
    2 * Z.abs (n * 2 ^ (- e) - Z.pos m * 10 ^ Z.of_nat p) <= 2 ^ (- e)
    /\ (2 * Z.abs (n * 2 ^ (- e) - Z.pos m * 10 ^ Z.of_nat p) = 2 ^ (- e) ->
        Z.even n = true).

(** [s] shows the float [x] to [p] decimals: the exact value of [x], which is
    [m * 2 ^ e] with its sign, rounded to the nearest multiple of [10 ^ - p]
    (ties to the even one) and written in decimal with the sign of [x]; a
    NaN and the infinities by their names. *)
Definition shows_rounded (p : nat) (x : float) (s : string) : Prop :=
  match Prim2SF x with
  | S754_zero negative => writes_scaled p negative 0 s
  | S754_finite negative m e =>
      exists n, nearest_scaled p m e n /\ writes_scaled p negative n s
  | S754_infinity negative => s = if negative then "-inf" else "inf"
  | S754_nan => s = "nan"
  end.

(** *** Members the program does not read *)

(** Two sales records with the same [Product] and the same [Quantity]
    (a missing member counting as [None]), or two records that are not
    objects. *)
Definition same_sale (r r' : pyval) : Prop :=
  match r, r' with
  | PDict d, PDict d' =>
      Py.get d "Product" = Py.get d' "Product"
      /\ Py.get d "Quantity" = Py.get d' "Quantity"
  | PDict _, _ | _, PDict _ => False
  | _, _ => True
  end.

(** The same for catalogue items, with [title] and [price]. *)
Definition same_item (i i' : pyval) : Prop :=
  match i, i' with
  | PDict d, PDict d' =>
      Py.get d "title" = Py.get d' "title"
      /\ Py.get d "price" = Py.get d' "price"
  | PDict _, _ | _, PDict _ => False
  | _, _ => True
  end.

(** A record without a [Product] member: not an object, or an object that
    has no such key. *)
Definition no_product (r : pyval) : Prop :=
  match r with
  | PDict d => d !! "Product" = None
  | _ => True
  end.

(** The warning such a record gets. *)
Definition no_product_warning (r : pyval) : message :=
  match r with
  | PDict _ => SaleNoProduct r
  | _ => SaleNotObject r
  end.

(** ** Sample inputs *)

(** A JSON object. *)
Definition obj (members : list (string * pyval)) : pyval :=
  PDict (list_to_map members).

Definition item (title : string) (price : pyval) : pyval :=
  obj [("title", PStr title); ("price", price)].

Definition sale (product : string) (quantity : pyval) : pyval :=
  obj [("Product", PStr product); ("Quantity", quantity)].

(** Nothing printed, nothing written. *)
Definition blank_world : world := World [] ∅.

(** The two input files, by name. *)
Definition two_files (catalog sales : read_result) (path : string) : read_result :=
  if String.eqb path "priceCatalogue.json" then catalog
  else if String.eqb path "salesRecord.json" then sales
  else FileNotFoundError.

Definition command_line : list string :=
  ["compute_sales.py"; "priceCatalogue.json"; "salesRecord.json"].

(** A catalogue with a title priced twice and two items that are skipped. *)
Definition sample_catalog : list pyval :=
  [item "A" (PInt 7); item "B" (PFloat 2.5); item "A" (PInt 10);
   item "C" (PStr "abc"); PStr "D"].

Definition sample_prices : gmap string float :=
  {[ "A" := 10%float; "B" := 2.5%float ]}.

(** Sales of 30.0, 5.0 and 20.0, and three records that fail a check. *)
Definition sample_sales : list pyval :=
  [sale "A" (PInt 3); sale "B" (PFloat 2); sale "C" (PInt 1);
   sale "A" (PInt (-1)); PInt 7; sale "A" (PStr "2")].

(** Prices in cents. *)
Definition cents_prices : gmap string float :=
  {[ "A" := 0.1%float; "B" := 0.2%float; "C" := 0.3%float ]}.

Definition cents_sales : list pyval :=
  [sale "A" (PInt 1); sale "B" (PInt 1); sale "C" (PInt 1)].

(** A price map with a title made of two blanks. *)
Definition blank_prices : gmap string float := {[ "  " := 2%float ]}.

(** A second catalogue, with a new price for B. *)
Definition more_catalog : list pyval :=
  [item "B" (PInt 3); item "D" (PFloat 1.5)].

Definition more_prices : gmap string float :=
  {[ "B" := 3%float; "D" := 1.5%float ]}.

(** Two more sales: one of B and one of a product without a price. *)
Definition more_sales : list pyval :=
  [sale "B" (PInt 2); sale "Z" (PInt 1)].

(** A sale and a catalogue item with a member the program does not read. *)
Definition dated_sale (date product : string) (quantity : pyval) : pyval :=
  obj [("Date", PStr date); ("Product", PStr product); ("Quantity", quantity)].

Definition stocked_item (title : string) (price : pyval) (stock : Z) : pyval :=
  obj [("title", PStr title); ("price", price); ("stock", PInt stock)].

(** A sale written with lower-case keys. *)
Definition lower_case_sale (product : string) (quantity : pyval) : pyval :=
  obj [("product", PStr product); ("quantity", quantity)].

(** * Properties *)

(** ** The world *)

Lemma emit_nil (w : world) : emit [] w = w.
Proof. destruct w as [out files]. unfold emit; simpl. by rewrite app_nil_r. Qed.

Lemma emit_emit (ms1 ms2 : list message) (w : world) :
  emit ms2 (emit ms1 w) = emit (ms1 ++ ms2)%list w.
Proof. unfold emit; simpl. by rewrite app_assoc. Qed.

(** ** Lists *)

Lemma length_omap_le {A B : Type} (f : A -> option B) (l : list A) :
  (length (omap f l) <= length l)%nat.
Proof.
  unfold omap. induction l as [|x l IH]; simpl; [done|].
  destruct (f x); simpl; lia.
Qed.

Lemma forallb_Forall_true {A : Type} (f : A -> bool) (l : list A) :
  forallb f l = true -> Forall (fun x => f x = true) l.
Proof.
  induction l as [|x l IH]; simpl; [constructor|].
  intros [Hx Hl]%andb_true_iff. constructor; auto.
Qed.

(** ** The loops *)

(** A loop whose body follows a verdict is the loop over the verdicts; the
    world only receives the warnings. *)
Lemma for_each_run_loop {S A B : Type} (body : S -> A -> io S)
    (judge : A -> verdict B) (skip : S -> S) (keep : S -> B -> S) :
  (forall s x w,
      body s x w = match judge x with
                   | Skipped m => (Return (skip s), emit [m] w)
                   | Kept b => (Return (keep s b), w)
                   | Escapes e => (Raise e, w)
                   end) ->
  forall l s w,
    for_each body l s w
    = ((run_loop judge skip keep l s).1, emit (run_loop judge skip keep l s).2 w).
Proof.
  intros Hbody l. induction l as [|x l IH]; intros s w; simpl.
  - by rewrite emit_nil.
  - unfold mbind, io_bind. rewrite Hbody.
    destruct (judge x) as [m|b|e]; simpl.
    + rewrite IH. destruct (run_loop judge skip keep l (skip s)) as [r ms]; simpl.
      by rewrite emit_emit.
    + apply IH.
    + by rewrite emit_nil.
Qed.

Section Loops.
Context `{Py.StrConv}.

Lemma add_price_judge (prices : gmap string float) (item : pyval) (w : world) :
  add_price prices item w
  = match judge_item item with
    | Skipped m => (Return (id prices), emit [m] w)
    | Kept entry => (Return (bind_price prices entry), w)
    | Escapes e => (Raise e, w)
    end.
Proof.
  unfold add_price, judge_item.
  destruct item; try reflexivity.
  destruct (name_of _); [|reflexivity].
  destruct (Py.to_float _) as [p|[]]; reflexivity.
Qed.

Lemma add_sale_judge (prices : gmap string float) (acc : float * Z)
    (record : pyval) (w : world) :
  add_sale prices acc record w
  = match judge_sale prices record with
    | Skipped m => (Return (count_error acc), emit [m] w)
    | Kept a => (Return (add_amount acc a), w)
    | Escapes e => (Raise e, w)
    end.
Proof.
  destruct acc as [total errors]. unfold add_sale, judge_sale.
  destruct record; try reflexivity.
  destruct (name_of _); [|reflexivity].
  destruct (Py.to_int _) as [qty|[]]; try reflexivity.
  destruct (qty <? 0); [reflexivity|].
  destruct (prices !! _); [|reflexivity].
  destruct (Py.mul_int _ _); reflexivity.
Qed.

(** [build_price_map] returns what [price_run] says and prints its warnings. *)
Lemma build_price_map_run (catalog : pyval) (w : world) :
  build_price_map catalog w = ((price_run catalog).1, emit (price_run catalog).2 w).
Proof.
  destruct catalog; try reflexivity.
  apply (for_each_run_loop add_price judge_item id bind_price).
  intros; apply add_price_judge.
Qed.

(** [compute_total_sales] returns what [sales_run] says and prints its
    warnings. *)
Lemma compute_total_sales_run (prices : gmap string float) (sales : pyval) (w : world) :
  compute_total_sales prices sales w
  = ((sales_run prices sales).1, emit (sales_run prices sales).2 w).
Proof.
  destruct sales; try reflexivity.
  apply (for_each_run_loop (add_sale prices) (judge_sale prices) count_error add_amount).
  intros; apply add_sale_judge.
Qed.

(** Only [OverflowError] escapes the conversions of a record. *)
Lemma judge_sale_escapes (prices : gmap string float) (record : pyval) (e : exn) :
  judge_sale prices record = Escapes e -> e = OverflowError.
Proof.
  unfold judge_sale. destruct record; try discriminate.
  destruct (name_of _); [|discriminate].
  destruct (Py.to_int _) as [qty|[]] eqn:Hq; try discriminate.
  - destruct (qty <? 0); [discriminate|].
    destruct (prices !! _); [|discriminate].
    unfold Py.mul_int, Py.float_of_int.
    destruct (is_infinity _); [|discriminate]. by intros [= <-].
  - by intros [= <-].
Qed.

Lemma judge_item_escapes (item : pyval) (e : exn) :
  judge_item item = Escapes e -> e = OverflowError.
Proof.
  unfold judge_item. destruct item; try discriminate.
  destruct (name_of _); [|discriminate].
  destruct (Py.to_float _) as [p|[]]; try discriminate. by intros [= <-].
Qed.

End Loops.

Section Sales.
Context `{Py.StrConv}.
Variable prices : gmap string float.

#[local] Abbreviation sales_loop :=
  (run_loop (judge_sale prices) count_error add_amount).

(** What the loop returns: it raises when a record does, and otherwise has
    added the amounts kept and counted the records skipped. *)
Lemma sales_loop_result (records : list pyval) (total : float) (errors : Z) :
  (sales_loop records (total, errors)).1
  = if sales_abort prices records then Raise OverflowError
    else Return (float_sum_from total (sold prices records),
                 errors + Z.of_nat (length (sale_warnings prices records))).
Proof.
  revert total errors.
  induction records as [|r records IH]; intros total errors; simpl.
  - by rewrite Z.add_0_r.
  - unfold sales_abort, sold, sale_warnings in *; simpl.
    destruct (judge_sale prices r) as [m|a|e] eqn:Hr; simpl.
    + specialize (IH total (errors + 1)).
      change (total, errors + 1) with (count_error (total, errors)) in IH.
      destruct (sales_loop records (count_error (total, errors))) as [res ms].
      simpl in *. rewrite IH.
      destruct (existsb _ records); [done|]. do 2 f_equal. lia.
    + apply IH.
    + by rewrite (judge_sale_escapes _ _ _ Hr).
Qed.

(** The warnings of a loop that returns: one for each record skipped. *)
Lemma sales_loop_warnings (records : list pyval) (acc : float * Z) :
  sales_abort prices records = false ->
  (sales_loop records acc).2 = sale_warnings prices records.
Proof.
  revert acc. unfold sales_abort, sale_warnings.
  induction records as [|r records IH]; intros acc Hno; simpl in *; [done|].
  destruct (judge_sale prices r) as [m|a|e]; simpl in *.
  - specialize (IH (count_error acc) Hno).
    destruct (sales_loop records (count_error acc)); simpl in *. by f_equal.
  - by apply IH.
  - discriminate.
Qed.

(** A record from which nothing escapes is kept with its amount when it
    passes every check, and skipped with a warning when it fails one. *)
Lemma judge_sale_amount (record : pyval) :
  escapes (judge_sale prices record) = false ->
  match amount prices record with
  | Some a => judge_sale prices record = Kept a
  | None => exists m, judge_sale prices record = Skipped m
  end.
Proof.
  unfold amount, judge_sale.
  destruct record; try (intros _; eexists; reflexivity).
  destruct (name_of _) as [product|]; [|intros _; eexists; reflexivity].
  destruct (Py.to_int _) as [qty|[]]; try (intros _; eexists; reflexivity);
    [|discriminate].
  destruct (Z.ltb_spec qty 0), (Z.leb_spec 0 qty); try lia;
    [intros _; eexists; reflexivity|].
  destruct (prices !! product); [|intros _; eexists; reflexivity].
  unfold Py.mul_int, Py.float_of_int.
  destruct (is_infinity _); [discriminate|reflexivity].
Qed.

(** Nothing escapes from a record whose quantity is in range. *)
Lemma in_range_no_escape (record : pyval) :
  quantity_in_range record = true -> escapes (judge_sale prices record) = false.
Proof.
  unfold quantity_in_range, judge_sale.
  destruct record; try reflexivity.
  destruct (name_of _) as [product|]; [|reflexivity].
  destruct (Py.to_int _) as [qty|[]]; try reflexivity; [|discriminate].
  destruct (qty <? 0); [reflexivity|].
  destruct (prices !! product); [|reflexivity].
  unfold Py.mul_int, Py.float_of_int.
  by destruct (is_infinity _).
Qed.

Lemma in_range_no_abort (records : list pyval) :
  Forall (fun r => quantity_in_range r = true) records ->
  sales_abort prices records = false.
Proof.
  unfold sales_abort. induction 1 as [|r records Hr _ IH]; simpl; [done|].
  by rewrite (in_range_no_escape r Hr), IH.
Qed.

(** In a loop that returns, the amounts added are those of the records that
    pass every check, and the warnings those of the records that fail one. *)
Lemma no_abort_sold (records : list pyval) :
  sales_abort prices records = false ->
  sold prices records = contributions prices records
  /\ Z.of_nat (length (sale_warnings prices records)) = failures prices records.
Proof.
  unfold sales_abort, sold, contributions, sale_warnings, failures,
    amounts_by, failures_by, omap.
  induction records as [|r records IH]; simpl; [done|].
  intros [Hr Hno]%orb_false_iff. destruct (IH Hno) as [IH1 IH2].
  apply judge_sale_amount in Hr.
  destruct (amount prices r) as [a|] eqn:Ha.
  - rewrite Hr; simpl. by rewrite IH1.
  - destruct Hr as [m ->]; simpl. rewrite IH1.
    split; [done|]. lia.
Qed.

(** A record whose quantity is refused is skipped. *)
Lemma refused_skipped (d : gmap string pyval) :
  quantity_refused (Py.get d "Quantity") = true ->
  exists m, judge_sale prices (PDict d) = Skipped m.
Proof.
  unfold quantity_refused, judge_sale.
  destruct (name_of _) as [product|]; [|intros _; eexists; reflexivity].
  destruct (Py.to_int _) as [qty|[]]; try (intros _; eexists; reflexivity);
    [|discriminate].
  intros ->. eexists; reflexivity.
Qed.

End Sales.

Section Sales_claims.
Context `{Py.StrConv}.
#[local] Arguments judge_sale : simpl never.

(** C1 (amended). For every price map and every list of sales records,
    what [compute_total_sales] returns is [(total, error_count)], where
    [total] is the sum, in input order, over exactly the records that are
    objects with a non-blank string [Product], a [Quantity] that converts to
    an integer, that integer [>= 0], and [Product] in the price map, of
    [price[product] * quantity], and [error_count] is the number of records
    failing one of these checks, each of them warned about once; and it does
    return, having gone through every record, whenever the quantities are in
    range. *)
Theorem compute_total_sales_sums (prices : gmap string float)
    (records : list pyval) (w : world) :
  (forall total errors w',
      compute_total_sales prices (PList records) w = (Return (total, errors), w') ->
      total = float_sum (contributions prices records)
      /\ errors = failures prices records
      /\ w' = emit (sale_warnings prices records) w
      /\ Z.of_nat (length (sale_warnings prices records)) = failures prices records)
  /\ (Forall (fun r => quantity_in_range r = true) records ->
      exists total errors,
        (compute_total_sales prices (PList records) w).1 = Return (total, errors)).
Proof.
  rewrite compute_total_sales_run. unfold sales_run.
  rewrite sales_loop_result. split.
  - intros total errors w'.
    destruct (sales_abort prices records) eqn:Hno; [discriminate|].
    destruct (no_abort_sold prices records Hno) as [Hsold Hcount].
    rewrite sales_loop_warnings by exact Hno.
    intros [= <- <- <-]. by rewrite Hsold, Hcount.
  - intros Hrange. rewrite (in_range_no_abort prices records Hrange).
    by do 2 eexists.
Qed.

(** C4 (amended). For every sales record whose [Quantity] does not convert
    to an integer ([int] raises [TypeError] or [ValueError]) or converts to a
    negative integer, the record is skipped with one warning, the error count
    is incremented by 1 and the total is left as it is: a run with the record
    returns the total of the run without it and one more error. *)
Theorem refused_quantity_skipped (prices : gmap string float)
    (d : gmap string pyval) :
  quantity_refused (Py.get d "Quantity") = true ->
  (forall total errors w,
      exists m, add_sale prices (total, errors) (PDict d) w
                = (Return (total, errors + 1), emit [m] w))
  /\ (forall before after w total errors,
         (compute_total_sales prices (PList (before ++ after)) w).1
         = Return (total, errors) ->
         (compute_total_sales prices (PList (before ++ PDict d :: after)) w).1
         = Return (total, errors + 1)).
Proof.
  intros Hq. destruct (refused_skipped prices d Hq) as [m Hm]. split.
  - intros total errors w. exists m. by rewrite add_sale_judge, Hm.
  - intros before after w total errors.
    rewrite !compute_total_sales_run. unfold sales_run; simpl.
    rewrite !sales_loop_result.
    unfold sales_abort, sold, sale_warnings.
    rewrite !existsb_app, !omap_app, !length_app. simpl. rewrite Hm. simpl.
    destruct (existsb _ before || existsb _ after); [discriminate|].
    unfold omap. intros [= <- <-]. do 2 f_equal. lia.
Qed.

(** C6 (amended). For every price map, every list of sales records and every
    permutation of it, [compute_total_sales] raises on both or returns on
    both, with the same error count, the same warnings up to their order, and
    as totals the sums, each in its input order, of the same amounts up to
    their order. The two totals are sums of floats and may differ. *)
Theorem permuted_sales (prices : gmap string float) (records records' : list pyval)
    (w : world) :
  Permutation records records' ->
  ((compute_total_sales prices (PList records) w).1 = Raise OverflowError
   /\ (compute_total_sales prices (PList records') w).1 = Raise OverflowError)
  \/ (compute_total_sales prices (PList records) w
      = (Return (float_sum (contributions prices records), failures prices records),
         emit (sale_warnings prices records) w)
      /\ compute_total_sales prices (PList records') w
         = (Return (float_sum (contributions prices records'), failures prices records),
            emit (sale_warnings prices records') w)
      /\ Permutation (contributions prices records) (contributions prices records')
      /\ Permutation (sale_warnings prices records) (sale_warnings prices records')).
Proof.
  intros Hperm.
  assert (Habort : sales_abort prices records = sales_abort prices records').
  { unfold sales_abort. apply eq_true_iff_eq.
    rewrite !existsb_exists. split; intros (r & Hin & Hr); exists r; split;
      try done; [by rewrite <- Hperm | by rewrite Hperm]. }
  assert (Hsold : Permutation (contributions prices records)
                              (contributions prices records'))
    by (unfold contributions, amounts_by; by rewrite Hperm).
  assert (Hwarn : Permutation (sale_warnings prices records)
                              (sale_warnings prices records'))
    by (unfold sale_warnings; by rewrite Hperm).
  rewrite !compute_total_sales_run. unfold sales_run.
  rewrite !sales_loop_result. rewrite <- Habort.
  destruct (sales_abort prices records) eqn:Hno; [by left|right].
  rewrite !sales_loop_warnings by congruence.
  destruct (no_abort_sold prices records Hno) as [-> <-].
  destruct (no_abort_sold prices records') as [-> _]; [congruence|].
  repeat split; try done. simpl. by rewrite Hwarn.
Qed.

(** C10. For every price map and every list of sales records, each record
    either adds one error and leaves the total, or adds its amount to the
    total and leaves the error count, or makes the call raise; so the error
    count [compute_total_sales] returns is at most the length of the list. *)
Theorem error_count_bounded (prices : gmap string float) (records : list pyval)
    (w : world) :
  (forall total errors record w',
      (exists m, add_sale prices (total, errors) record w'
                 = (Return (total, errors + 1), emit [m] w'))
      \/ (exists a, add_sale prices (total, errors) record w'
                    = (Return ((total + a)%float, errors), w'))
      \/ add_sale prices (total, errors) record w' = (Raise OverflowError, w'))
  /\ match (compute_total_sales prices (PList records) w).1 with
     | Return (_, errors) => 0 <= errors <= Z.of_nat (length records)
     | Raise e => e = OverflowError
     end.
Proof.
  split.
  - intros total errors record w'. rewrite add_sale_judge.
    destruct (judge_sale prices record) as [m|a|e] eqn:Hr.
    + left. by exists m.
    + right; left. by exists a.
    + right; right. by rewrite (judge_sale_escapes _ _ _ Hr).
  - rewrite compute_total_sales_run. unfold sales_run.
    rewrite sales_loop_result.
    destruct (sales_abort prices records); [done|].
    unfold sale_warnings.
    pose proof (length_omap_le (fun r => skipped (judge_sale prices r)) records).
    simpl. lia.
Qed.

End Sales_claims.

Section Catalog.
Context `{Py.StrConv}.

#[local] Abbreviation price_loop := (run_loop judge_item id bind_price).

Lemma price_loop_result (items : list pyval) (prices : gmap string float) :
  (price_loop items prices).1
  = if catalog_aborts items then Raise OverflowError
    else Return (fold_left bind_price (bound items) prices).
Proof.
  revert prices. unfold catalog_aborts, bound, omap.
  induction items as [|i items IH]; intros prices; simpl; [done|].
  destruct (judge_item i) as [m|entry|e] eqn:Hi; simpl.
  - specialize (IH prices). change (id prices) with prices.
    by destruct (price_loop items prices).
  - apply IH.
  - by rewrite (judge_item_escapes _ _ Hi).
Qed.

Lemma price_loop_warnings (items : list pyval) (prices : gmap string float) :
  catalog_aborts items = false ->
  (price_loop items prices).2 = catalog_warnings items.
Proof.
  revert prices. unfold catalog_aborts, catalog_warnings, omap.
  induction items as [|i items IH]; intros prices Hno; simpl in *; [done|].
  destruct (judge_item i) as [m|entry|e]; simpl in *.
  - specialize (IH prices Hno). change (id prices) with prices.
    destruct (price_loop items prices); simpl in *. by f_equal.
  - by apply IH.
  - discriminate.
Qed.

(** The entries the loop binds are the valid entries. *)
Lemma kept_valid_entry (item : pyval) : kept (judge_item item) = valid_entry item.
Proof.
  unfold judge_item, valid_entry. destruct item; try reflexivity.
  destruct (name_of _); [|reflexivity].
  by destruct (Py.to_float _) as [p|[]].
Qed.

(** In range, an item is bound when it is a valid entry and skipped with a
    warning when it is not. *)
Lemma judge_item_valid (item : pyval) :
  price_in_range item = true ->
  match valid_entry item with
  | Some entry => judge_item item = Kept entry
  | None => exists m, judge_item item = Skipped m
  end.
Proof.
  unfold price_in_range, valid_entry, judge_item.
  destruct item; try (intros _; eexists; reflexivity).
  destruct (name_of _);
    destruct (Py.to_float _) as [p|[]];
    first [discriminate | reflexivity | intros _; eexists; reflexivity].
Qed.

Lemma in_range_no_item_abort (items : list pyval) :
  Forall (fun i => price_in_range i = true) items ->
  catalog_aborts items = false.
Proof.
  unfold catalog_aborts.
  induction 1 as [|i items Hi _ IH]; simpl; [done|].
  apply judge_item_valid in Hi. rewrite IH.
  destruct (valid_entry i) as [entry|]; [by rewrite Hi|].
  by destruct Hi as [m ->].
Qed.

(** After the loop a title has the price of its last valid entry, and the
    price it had before when it has no entry. *)
Lemma lookup_bound (items : list pyval) (prices : gmap string float)
    (title : string) :
  fold_left bind_price (bound items) prices !! title
  = match last_price title items with
    | Some price => Some price
    | None => prices !! title
    end.
Proof.
  revert prices. unfold bound, last_price, omap.
  induction items as [|i items IH]; intros prices; simpl; [done|].
  rewrite kept_valid_entry.
  destruct (valid_entry i) as [[t price]|]; simpl; [|apply IH].
  rewrite IH. unfold bind_price; simpl.
  destruct (String.eqb_spec t title) as [->|Hne].
  - rewrite last_cons.
    destruct (last _); [done|]. by rewrite lookup_insert_eq.
  - destruct (last _); [done|]. by rewrite lookup_insert_ne.
Qed.

(** A loop that returns has warned once for each item that is not a valid
    entry, and for no other item. *)
Lemma returns_warnings (items : list pyval) :
  catalog_aborts items = false ->
  length (catalog_warnings items) = length (invalid_items items).
Proof.
  unfold catalog_aborts, catalog_warnings, invalid_items, omap.
  induction items as [|i items IH]; simpl; [done|].
  rewrite <- kept_valid_entry.
  destruct (judge_item i) as [m|entry|e]; simpl; [|done|discriminate].
  intros Hno. by rewrite IH.
Qed.

(** C7. For every catalogue list, the map [build_price_map] returns binds
    each title to the price of the last valid entry with that title in input
    order (and to nothing when there is none): of several valid entries with
    one title the last one wins. The only warnings are those of the items
    that are not valid entries, one each, so an entry that overwrites a price
    is bound without a warning. The map is returned whenever no price is out
    of range. *)
Theorem last_write_wins (items : list pyval) (w : world) :
  (forall prices w',
      build_price_map (PList items) w = (Return prices, w') ->
      (forall title, prices !! title = last_price title items)
      /\ w' = emit (catalog_warnings items) w
      /\ length (catalog_warnings items) = length (invalid_items items))
  /\ (Forall (fun i => price_in_range i = true) items ->
      exists prices, (build_price_map (PList items) w).1 = Return prices).
Proof.
  rewrite build_price_map_run. unfold price_run.
  rewrite price_loop_result. split.
  - intros prices w'. destruct (catalog_aborts items) eqn:Hno; [discriminate|].
    rewrite price_loop_warnings by exact Hno. intros [= <- <-].
    split; [|split; [reflexivity|by apply returns_warnings]].
    intros title. rewrite lookup_bound, lookup_empty.
    by destruct (last_price title items).
  - intros Hrange. rewrite (in_range_no_item_abort items Hrange).
    by eexists.
Qed.

End Catalog.

(** ** The run *)

Section Run.
Context `{Py.StrConv}.
Variable inputs : string -> read_result.

Lemma load_json_loaded (path : string) (w : world) :
  load_json inputs path w
  = (Return (loaded (inputs path)), emit (load_diagnostic path (inputs path)) w).
Proof.
  unfold load_json, loaded, load_diagnostic.
  destruct (inputs path); try reflexivity. by rewrite emit_nil.
Qed.

(** [main] returns what [main_run] says, prints its messages and writes its
    text. *)
Lemma main_main_run (clock : float * float) (argv : list string) (w : world) :
  main inputs clock argv w
  = ((main_run inputs clock argv).1.1,
     after (main_run inputs clock argv).1.2 (main_run inputs clock argv).2 w).
Proof.
  unfold main, main_run.
  destruct argv as [|prog [|catalog_path [|sales_path [|extra argv]]]];
    try reflexivity.
  unfold mbind, io_bind. rewrite !load_json_loaded. unfold both_loaded.
  destruct (Py.is_none _ || Py.is_none _); simpl.
  { by rewrite !emit_emit, <- app_assoc. }
  rewrite build_price_map_run.
  destruct (price_run _) as [[prices|e] ms]; simpl.
  2:{ by rewrite !emit_emit, <- app_assoc. }
  rewrite compute_total_sales_run.
  destruct (sales_run _ _) as [[[total errors]|e] ms']; simpl.
  2:{ by rewrite !emit_emit, <- !app_assoc. }
  unfold write_results, after, emit; simpl. by rewrite <- !app_assoc.
Qed.

End Run.

Section Run_claims.
Context `{Py.StrConv}.

Lemma price_run_returns (catalog : pyval) :
  catalog_in_range catalog = true ->
  exists prices, (price_run catalog).1 = Return prices.
Proof.
  destruct catalog; try (intros _; eexists; reflexivity).
  unfold catalog_in_range, price_run. intros Hall.
  rewrite price_loop_result.
  rewrite (in_range_no_item_abort l); [by eexists|].
  by apply forallb_Forall_true.
Qed.

Lemma sales_run_returns (prices : gmap string float) (sales : pyval) :
  sales_in_range sales = true ->
  exists total errors, (sales_run prices sales).1 = Return (total, errors).
Proof.
  destruct sales; try (intros _; do 2 eexists; reflexivity).
  unfold sales_in_range, sales_run. intros Hall.
  rewrite sales_loop_result.
  rewrite (in_range_no_abort prices l); [by do 2 eexists|].
  by apply forallb_Forall_true.
Qed.

(** C5. For every invocation in which either input file is missing,
    unparseable or unreadable, [main] prints the diagnostic of each file
    that fails and then that the inputs could not be loaded, returns 1 (the
    exit status), and leaves every file as it was: the results file is
    neither written nor updated. *)
Theorem load_failure_exits_1 (inputs : string -> read_result)
    (clock : float * float) (prog catalog_path sales_path : string) (w : world) :
  load_fails (inputs catalog_path) = true \/ load_fails (inputs sales_path) = true ->
  main inputs clock [prog; catalog_path; sales_path] w
  = (Return 1,
     emit (load_diagnostic catalog_path (inputs catalog_path)
           ++ load_diagnostic sales_path (inputs sales_path)
           ++ [InputsNotLoaded])%list w)
  /\ (load_diagnostic catalog_path (inputs catalog_path)
      ++ load_diagnostic sales_path (inputs sales_path))%list <> []
  /\ disk (main inputs clock [prog; catalog_path; sales_path] w).2 = disk w
  /\ exit_status (main inputs clock [prog; catalog_path; sales_path] w).1 = 1.
Proof.
  intros Hfail. rewrite main_main_run. unfold main_run.
  assert (Hnone : both_loaded (loaded (inputs catalog_path))
                              (loaded (inputs sales_path)) = false).
  { unfold both_loaded.
    destruct Hfail as [Hf|Hf];
      destruct (inputs catalog_path), (inputs sales_path);
      try discriminate; simpl; try reflexivity;
      by rewrite orb_true_r. }
  rewrite Hnone; simpl. rewrite <- app_assoc. repeat split.
  destruct Hfail as [Hf|Hf];
    destruct (inputs catalog_path), (inputs sales_path); discriminate.
Qed.

(** C2 (amended). For every catalogue payload that is not a sequence,
    [build_price_map] reports it and returns the empty map, and for every
    sales payload that is not a sequence [compute_total_sales] reports it
    once and returns [(0.0, 1)]; when neither payload is [null] and no price
    or quantity is out of range, the run goes on to print and write the
    report and returns 0: the report of the sales against the empty map when
    the catalogue is not a sequence, and the report of total 0.0 and one
    error when the sales payload is not a sequence. *)
Theorem degraded_run (inputs : string -> read_result) (clock : float * float)
    (prog catalog_path sales_path : string) (catalog sales : pyval) (w : world) :
  inputs catalog_path = Parsed catalog ->
  inputs sales_path = Parsed sales ->
  both_loaded catalog sales = true ->
  Py.is_list catalog = false \/ Py.is_list sales = false ->
  catalog_in_range catalog = true ->
  sales_in_range sales = true ->
  (Py.is_list catalog = false ->
   build_price_map catalog w = (Return ∅, emit [CatalogNotList] w))
  /\ (Py.is_list sales = false ->
      forall prices,
        compute_total_sales prices sales w
        = (Return (0%float, 1), emit [SalesNotList] w))
  /\ exists total errors ms,
      main inputs clock [prog; catalog_path; sales_path] w
      = (Return 0,
         after (ms ++ [Text (format_results total errors (clock.2 - clock.1)%float)])
               (Some (format_results total errors (clock.2 - clock.1)%float)) w)
      /\ (Py.is_list catalog = false ->
          (compute_total_sales ∅ sales w).1 = Return (total, errors))
      /\ (Py.is_list sales = false -> total = 0%float /\ errors = 1)
      /\ exit_status (main inputs clock [prog; catalog_path; sales_path] w).1 = 0.
Proof.
  intros Hc Hs Hboth _ Hcr Hsr. split; [|split].
  - by destruct catalog.
  - by destruct sales.
  - rewrite main_main_run. unfold main_run. rewrite Hc, Hs; simpl.
    rewrite Hboth.
    destruct (price_run_returns catalog Hcr) as [prices Hp].
    pose proof (eq_refl (price_run catalog)) as Hprices.
    destruct (price_run catalog) as [r ms] in Hp, Hprices at 2 |- *.
    simpl in Hp; subst r.
    destruct (sales_run_returns prices sales Hsr) as (total & errors & Ht).
    pose proof (eq_refl (sales_run prices sales)) as Hrun.
    destruct (sales_run prices sales) as [r ms'] in Ht, Hrun at 2 |- *.
    simpl in Ht; subst r.
    exists total, errors, (ms ++ ms')%list. simpl.
    rewrite <- app_assoc. split; [reflexivity|].
    split; [|split; [|reflexivity]].
    + intros Hl. rewrite compute_total_sales_run.
      assert (prices = ∅) as <-
        by (destruct catalog; try discriminate; by injection Hprices).
      by rewrite Hrun.
    + intros Hl. destruct sales; try discriminate; by injection Hrun.
Qed.

(** C9. For every pair of runs that find the same catalogue and sales
    inputs, the second run ends as the first one does; when they end with
    status 0, the price map, the total and the error count computed are the
    same whatever was printed or written before, both reports show that
    total and error count, each with the elapsed time of its own run, and
    after the second run the results file holds the second report alone. *)
Theorem rerun_same_totals (inputs inputs' : string -> read_result)
    (clock clock' : float * float) (prog catalog_path sales_path : string)
    (w : world) :
  inputs' catalog_path = inputs catalog_path ->
  inputs' sales_path = inputs sales_path ->
  let argv := [prog; catalog_path; sales_path] in
  let first := main inputs clock argv w in
  let second := main inputs' clock' argv first.2 in
  second.1 = first.1
  /\ (first.1 = Return 0 ->
      exists prices total errors,
        let report := format_results total errors (clock.2 - clock.1)%float in
        let report' := format_results total errors (clock'.2 - clock'.1)%float in
        (forall w',
            (build_price_map (loaded (inputs catalog_path)) w').1 = Return prices
            /\ (compute_total_sales prices (loaded (inputs sales_path)) w').1
               = Return (total, errors))
        /\ disk first.2 !! results_file = Some report
        /\ last (stdout first.2) = Some (Text report)
        /\ disk second.2 !! results_file = Some report'
        /\ last (stdout second.2) = Some (Text report')).
Proof.
  intros Hcatalog Hsales argv first second. subst argv first second.
  rewrite !main_main_run. simpl. unfold main_run.
  rewrite Hcatalog, Hsales.
  destruct (both_loaded _ _); [|split; [reflexivity|discriminate]].
  destruct (price_run _) as [[prices|e] ms] eqn:Hprices;
    [|split; [reflexivity|discriminate]].
  destruct (sales_run _ _) as [[[total errors]|e] ms'] eqn:Htotal;
    [|split; [reflexivity|discriminate]].
  split; [reflexivity|]. intros _. exists prices, total, errors. simpl.
  split.
  { intros w'. rewrite build_price_map_run, Hprices. split; [reflexivity|].
    by rewrite compute_total_sales_run, Htotal. }
  rewrite !lookup_insert_eq, !app_assoc, !last_snoc. done.
Qed.

End Run_claims.

(** ** The report *)

Lemma append_cons (x : ascii) (a b : string) :
  String x a +:+ b = String x (a +:+ b).
Proof. reflexivity. Qed.

Lemma append_assoc (a b c : string) : (a +:+ b) +:+ c = a +:+ b +:+ c.
Proof. induction a as [|x a IH]; [done|]. by rewrite !append_cons, IH. Qed.

Lemma length_append (a b : string) :
  String.length (a +:+ b) = (String.length a + String.length b)%nat.
Proof. induction a as [|x a IH]; [done|]. rewrite append_cons; simpl. by f_equal. Qed.

Lemma list_ascii_of_append (a b : string) :
  list_ascii_of_string (a +:+ b)
  = (list_ascii_of_string a ++ list_ascii_of_string b)%list.
Proof. induction a as [|x a IH]; [done|]. rewrite append_cons; simpl. by f_equal. Qed.

Lemma digits_length (k : nat) (n : Z) : String.length (Py.digits k n) = k.
Proof.
  revert n. induction k as [|k IH]; intros n; simpl; [done|].
  rewrite length_append, IH. simpl. lia.
Qed.

Lemma digits_are_digits (k : nat) (n : Z) :
  forallb is_digit (list_ascii_of_string (Py.digits k n)) = true.
Proof.
  revert n. induction k as [|k IH]; intros n; simpl; [done|].
  rewrite list_ascii_of_append, forallb_app, IH.
  cbn [list_ascii_of_string forallb andb]. rewrite andb_true_r.
  pose proof (Z.mod_pos_bound n 10 eq_refl) as Hmod.
  unfold is_digit. rewrite nat_ascii_embedding by lia.
  apply andb_true_iff; split; apply Nat.leb_le; lia.
Qed.

(** A magnitude is written with as many decimals as asked for. *)
Lemma fixed_has_decimals (p : nat) (negative : bool) (n : Z) :
  has_decimals (S p) (Py.fixed (S p) negative n).
Proof.
  exists ((if negative then "-" else "") +:+ pretty (n / 10 ^ Z.of_nat (S p))),
         (Py.digits (S p) n).
  split; [|split].
  - unfold Py.fixed. by rewrite append_assoc.
  - apply digits_length.
  - apply digits_are_digits.
Qed.

(** What [format(x, ".pf")] looks like. *)
Lemma format_fixed_shape (p : nat) (x : float) :
  if finite x then has_decimals (S p) (Py.format_fixed (S p) x)
  else In (Py.format_fixed (S p) x) ["nan"; "inf"; "-inf"].
Proof.
  unfold finite, Py.format_fixed.
  destruct (Prim2SF x) as [s|s| |s m e].
  - apply fixed_has_decimals.
  - destruct s; simpl; auto.
  - simpl; auto.
  - apply fixed_has_decimals.
Qed.

(** Reading a text in two parts. *)
Lemma digits_value_append (a b : string) (acc : Z) :
  digits_value acc (a +:+ b)
  = match digits_value acc a with
    | Some v => digits_value v b
    | None => None
    end.
Proof.
  revert acc. induction a as [|c a IH]; intros acc; [done|].
  rewrite append_cons. simpl. destruct (digit_value c); [apply IH|done].
Qed.

Lemma digit_value_char (d : N) :
  (d < 10)%N -> digit_value (pretty_N_char d) = Some (Z.of_N d).
Proof.
  intros Hd.
  assert (d = 0 \/ d = 1 \/ d = 2 \/ d = 3 \/ d = 4 \/ d = 5 \/ d = 6
          \/ d = 7 \/ d = 8 \/ d = 9)%N as Hcases by lia.
  repeat (destruct Hcases as [->|Hcases]; [reflexivity|]).
  by subst d.
Qed.

Lemma digit_value_of_nat (d : Z) :
  0 <= d < 10 -> digit_value (ascii_of_nat (48 + Z.to_nat d)) = Some d.
Proof.
  intros Hd. unfold digit_value, is_digit.
  rewrite nat_ascii_embedding by lia.
  destruct (Nat.leb_spec 48 (48 + Z.to_nat d)); [|lia].
  destruct (Nat.leb_spec (48 + Z.to_nat d) 57); [|lia].
  simpl. f_equal. lia.
Qed.

(** The digits [pretty] writes in front of [s] stand for the number. *)
Lemma digits_value_pretty_go (x : N) :
  forall (s : string) (acc : Z),
    exists k, 0 <= k
              /\ digits_value acc (pretty_N_go x s)
                 = digits_value (acc * 10 ^ k + Z.of_N x) s.
Proof.
  induction (N.lt_wf_0 x) as [x _ IH]. intros s acc.
  destruct (N.eq_dec x 0%N) as [->|Hx].
  - exists 0. split; [lia|]. rewrite pretty_N_go_0. f_equal. lia.
  - rewrite pretty_N_go_step by lia.
    destruct (IH (x `div` 10)%N (N.div_lt x 10 ltac:(lia) eq_refl)
                 (String (pretty_N_char (x `mod` 10)) s) acc)
      as (k & Hk & ->).
    exists (k + 1). split; [lia|]. simpl.
    rewrite digit_value_char by (apply N.mod_lt; lia).
    f_equal. rewrite Z.pow_add_r, Z.pow_1_r by lia.
    rewrite N2Z.inj_div, N2Z.inj_mod.
    pose proof (Z.div_mod (Z.of_N x) 10 ltac:(lia)). simpl Z.of_N. lia.
Qed.

(** A number that is not zero is written without a leading zero. *)
Lemma pretty_go_leading (x : N) :
  forall s : string,
    (0 < x)%N ->
    exists c r, pretty_N_go x s = String c r /\ Ascii.eqb c "0" = false.
Proof.
  induction (N.lt_wf_0 x) as [x _ IH]. intros s Hx.
  rewrite pretty_N_go_step by done.
  destruct (N.eq_dec (x `div` 10)%N 0%N) as [Hsmall|Hlarge].
  - rewrite Hsmall, pretty_N_go_0. eexists _, _. split; [reflexivity|].
    assert (x < 10)%N as Hlt by (apply N.div_small_iff in Hsmall; lia).
    rewrite N.mod_small by done.
    assert (x = 1 \/ x = 2 \/ x = 3 \/ x = 4 \/ x = 5 \/ x = 6
            \/ x = 7 \/ x = 8 \/ x = 9)%N as Hcases by lia.
    repeat (destruct Hcases as [->|Hcases]; [reflexivity|]).
    by subst x.
  - apply IH; [apply N.div_lt; lia|by apply N.neq_0_lt_0].
Qed.

Lemma natural_value_pretty (z : Z) :
  0 <= z -> natural_value (pretty z) = Some z.
Proof.
  intros Hz. destruct z as [|x|x]; [done| |lia].
  change (pretty (Z.pos x)) with (pretty_N_go (N.pos x) "").
  destruct (pretty_go_leading (N.pos x) "" eq_refl) as (c & r & Htext & Hc).
  destruct (digits_value_pretty_go (N.pos x) "" 0) as (k & _ & Hvalue).
  rewrite Htext in *. unfold natural_value. rewrite Hc, Hvalue. done.
Qed.

(** The text of an integer reads as the integer. *)
Lemma decimal_value_str (n : Z) : decimal_value (Py.str_of_int n) = Some n.
Proof.
  unfold Py.str_of_int. destruct n as [|x|x]; [done| |].
  - pose proof (natural_value_pretty (Z.pos x) ltac:(lia)) as Hvalue.
    unfold decimal_value. destruct (pretty (Z.pos x)) as [|c r]; [done|].
    destruct (Ascii.eqb_spec c "-") as [->|_]; [discriminate|done].
  - pose proof (natural_value_pretty (Z.pos x) ltac:(lia)) as Hvalue.
    change (pretty (Z.neg x)) with (String "-" (pretty (Z.pos x))).
    unfold decimal_value. rewrite Ascii.eqb_refl, Hvalue. done.
Qed.

(** The digits [Py.digits] writes stand for the number modulo [10 ^ k]. *)
Lemma digits_value_digits (k : nat) (n acc : Z) :
  digits_value acc (Py.digits k n)
  = Some (acc * 10 ^ Z.of_nat k + n mod 10 ^ Z.of_nat k).
Proof.
  revert n acc. induction k as [|k IH]; intros n acc.
  - simpl. rewrite Z.mod_1_r. f_equal. lia.
  - cbn [Py.digits]. rewrite digits_value_append, IH.
    cbn [digits_value].
    rewrite digit_value_of_nat by (apply Z.mod_pos_bound; lia).
    f_equal. rewrite Nat2Z.inj_succ, Z.pow_succ_r by lia.
    rewrite (Z.rem_mul_r n 10 (10 ^ Z.of_nat k))
      by (try apply Z.pow_pos_nonneg; lia).
    lia.
Qed.

(** A magnitude is written as [writes_scaled] says. *)
Lemma fixed_writes_scaled (p : nat) (negative : bool) (n : Z) :
  0 <= n -> writes_scaled (S p) negative n (Py.fixed (S p) negative n).
Proof.
  intros Hn.
  exists (pretty (n / 10 ^ Z.of_nat (S p))), (Py.digits (S p) n).
  assert (0 <= n / 10 ^ Z.of_nat (S p)) as Hwhole
    by (apply Z.div_pos; [done|apply Z.pow_pos_nonneg; lia]).
  split; [reflexivity|]. split; [by apply natural_value_pretty|].
  split; [apply digits_length|].
  rewrite digits_value_digits. f_equal; lia.
Qed.

(** [Py.round_half_even] gives the nearest integer, the even one on a tie. *)
Lemma round_half_even_nearest (p : nat) (m : positive) (e : Z) :
  nearest_scaled p m e (Py.round_half_even (Z.pos m * 10 ^ Z.of_nat p) e)
  /\ 0 <= Py.round_half_even (Z.pos m * 10 ^ Z.of_nat p) e.
Proof.
  unfold nearest_scaled, Py.round_half_even.
  assert (0 < Z.pos m * 10 ^ Z.of_nat p) as HM
    by (apply Z.mul_pos_pos; [lia|apply Z.pow_pos_nonneg; lia]).
  set (M := Z.pos m * 10 ^ Z.of_nat p) in *.
  destruct (Z.leb_spec 0 e) as [He|He].
  - split; [done|]. apply Z.mul_nonneg_nonneg; [lia|]. apply Z.pow_nonneg. lia.
  - assert (0 < 2 ^ (- e)) as Hd by (apply Z.pow_pos_nonneg; lia).
    set (d := 2 ^ (- e)) in *.
    pose proof (Z.div_mod M d ltac:(lia)) as Hdiv.
    pose proof (Z.mod_pos_bound M d Hd) as Hmod.
    assert (0 <= M / d) as Hq by (apply Z.div_pos; lia).
    set (q := M / d) in *. set (r := M mod d) in *.
    assert (q * d - M = - r) as Hlow by lia.
    assert ((q + 1) * d - M = d - r) as Hhigh by lia.
    destruct (Z.compare_spec (2 * r) d) as [Htie|Hlt|Hgt].
    + destruct (Z.even q) eqn:Heven.
      * rewrite Hlow. split; [|lia]. split; [lia|done].
      * rewrite Hhigh. split; [|lia]. split; [lia|]. intros _.
        by rewrite Z.add_1_r, Z.even_succ, <- Z.negb_even, Heven.
    + rewrite Hlow. split; [|lia]. split; lia.
    + rewrite Hhigh. split; [|lia]. split; lia.
Qed.

(** [format(x, ".pf")] shows [x] to [p] decimals. *)
Lemma format_fixed_shows (p : nat) (x : float) :
  shows_rounded (S p) x (Py.format_fixed (S p) x).
Proof.
  unfold shows_rounded, Py.format_fixed.
  destruct (Prim2SF x) as [s|s| |s m e]; try done.
  - by apply fixed_writes_scaled.
  - destruct (round_half_even_nearest (S p) m e) as [Hnear Hpos].
    eexists. split; [exact Hnear|]. by apply fixed_writes_scaled.
Qed.

(** C8 (amended). For every total and elapsed time and every error count of
    at most 4300 digits, a call of [format_results] returns the block of
    four lines ['=== Sales Results ==='], ['Total Sales: $'] with the total,
    ['Errors/Warnings: '] with the count and ['Execution Time: '] with the
    elapsed time followed by [' seconds']: the count in decimal, the total
    with 2 decimals and the elapsed time with 6, each the exact value of the
    float rounded to the nearest (ties to even) with its sign, a NaN or an
    infinity as [nan], [inf] or [-inf]. Printing the block and then writing
    it leaves the same text as the last thing printed and as the whole
    content of the results file, whatever the file held before; and every
    run that returns 0 has done so with the block of some total and error
    count and its elapsed time. *)
Theorem report_block (total : float) (errors : Z) (elapsed : float) (w : world) :
  Z.abs errors < 10 ^ 4300 ->
  let block := format_results total errors elapsed in
  format_results_call total errors elapsed = Return block
  /\ (exists total_text count_text elapsed_text : string,
         block = unlines ["=== Sales Results ===";
                          "Total Sales: $" +:+ total_text;
                          "Errors/Warnings: " +:+ count_text;
                          "Execution Time: " +:+ elapsed_text +:+ " seconds"]
         /\ shows_rounded 2 total total_text
         /\ decimal_value count_text = Some errors
         /\ shows_rounded 6 elapsed elapsed_text)
  /\ (if finite total then has_decimals 2 (Py.format_fixed 2 total)
      else In (Py.format_fixed 2 total) ["nan"; "inf"; "-inf"])
  /\ (if finite elapsed then has_decimals 6 (Py.format_fixed 6 elapsed)
      else In (Py.format_fixed 6 elapsed) ["nan"; "inf"; "-inf"])
  /\ (print (Text block);; write_results block results_file) w
     = (Return tt, after [Text block] (Some block) w)
  /\ (forall other,
         disk (after [Text block] (Some block) w) !! other
         = if String.eqb other results_file then Some block else disk w !! other)
  /\ (forall (conv : Py.StrConv) inputs clock argv w',
         main inputs clock argv w = (Return 0, w') ->
         exists total' errors' ms,
           w' = after (ms ++ [Text (format_results total' errors' (clock.2 - clock.1)%float)])
                      (Some (format_results total' errors' (clock.2 - clock.1)%float)) w).
Proof.
  intros Hlimit block.
  split; [|split; [|split; [|split; [|split; [|split]]]]].
  - unfold format_results_call, Py.str.
    by rewrite (proj2 (Z.ltb_lt _ _) Hlimit).
  - exists (Py.format_fixed 2 total), (Py.str_of_int errors),
           (Py.format_fixed 6 elapsed).
    split; [|split; [|split]].
    + subst block. unfold format_results, unlines; simpl.
      by rewrite !append_assoc.
    + apply format_fixed_shows.
    + apply decimal_value_str.
    + apply format_fixed_shows.
  - apply format_fixed_shape.
  - apply format_fixed_shape.
  - reflexivity.
  - intros other. simpl. destruct (String.eqb_spec other results_file) as [->|Hne].
    + by rewrite lookup_insert_eq.
    + by rewrite lookup_insert_ne.
  - intros conv inputs clock argv w'. rewrite main_main_run.
    unfold main_run.
    destruct argv as [|prog [|catalog_path [|sales_path [|extra argv]]]];
      try discriminate.
    destruct (both_loaded _ _); [|discriminate].
    destruct (price_run _) as [[prices|e] ms]; [|discriminate].
    destruct (sales_run _ _) as [[[total' errors']|e] ms']; [|discriminate].
    simpl. intros [= <-]. eexists total', errors', _.
    by rewrite !app_assoc.
Qed.

(** * Further properties of the code *)

Section Returns.
Context `{Py.StrConv}.

(** When [build_price_map] returns on a list: nothing escaped, the map is
    the one the bound entries build, the warnings are printed. *)
Lemma build_price_map_returns (items : list pyval) (w : world)
    (prices : gmap string float) (w' : world) :
  build_price_map (PList items) w = (Return prices, w') <->
  catalog_aborts items = false
  /\ prices = fold_left bind_price (bound items) ∅
  /\ w' = emit (catalog_warnings items) w.
Proof.
  rewrite build_price_map_run. unfold price_run. rewrite price_loop_result.
  destruct (catalog_aborts items) eqn:Hno.
  - split; [discriminate|]. by intros [? _].
  - rewrite price_loop_warnings by exact Hno. split.
    + by intros [= <- <-].
    + by intros (_ & -> & ->).
Qed.

(** The same for [compute_total_sales]. *)
Lemma compute_total_sales_returns (prices : gmap string float)
    (records : list pyval) (w : world) (total : float) (errors : Z) (w' : world) :
  compute_total_sales prices (PList records) w = (Return (total, errors), w') <->
  sales_abort prices records = false
  /\ total = float_sum (sold prices records)
  /\ errors = Z.of_nat (length (sale_warnings prices records))
  /\ w' = emit (sale_warnings prices records) w.
Proof.
  rewrite compute_total_sales_run. unfold sales_run. rewrite sales_loop_result.
  destruct (sales_abort prices records) eqn:Hno.
  - split; [discriminate|]. by intros [? _].
  - rewrite sales_loop_warnings by exact Hno. split.
    + by intros [= <- <- <-].
    + by intros (_ & -> & -> & ->).
Qed.

Lemma name_of_Some (v : pyval) (s : string) :
  name_of v = Some s -> v = PStr s /\ Py.strip s <> "".
Proof.
  unfold name_of. destruct v; try discriminate.
  destruct (String.eqb_spec (Py.strip s0) ""); [discriminate|].
  by intros [= ->].
Qed.

Lemma valid_entry_title (item : pyval) (title : string) (price : float) :
  valid_entry item = Some (title, price) -> Py.strip title <> "".
Proof.
  unfold valid_entry. destruct item; try discriminate.
  destruct (name_of _) as [t|] eqn:Ht; [|discriminate].
  destruct (Py.to_float _); [|discriminate].
  intros [= <- _]. by apply name_of_Some in Ht as [_ ?].
Qed.

Lemma size_fold_bind (entries : list (string * float)) (prices : gmap string float) :
  (size (fold_left bind_price entries prices) <= size prices + length entries)%nat.
Proof.
  revert prices. induction entries as [|entry entries IH]; intros prices; simpl.
  - lia.
  - etrans; [apply IH|]. unfold bind_price. rewrite map_size_insert.
    destruct (prices !! entry.1); simpl; lia.
Qed.

(** The entries bound on top of a map override it and leave the rest. *)
Lemma fold_bound_union (items : list pyval) (prices : gmap string float) :
  fold_left bind_price (bound items) prices
  = fold_left bind_price (bound items) ∅ ∪ prices.
Proof.
  apply map_eq. intros title.
  rewrite lookup_union, !lookup_bound, lookup_empty.
  destruct (last_price title items); [|by rewrite (left_id_L None _)].
  by destruct (prices !! title).
Qed.

(** X1. Every title of the map [build_price_map] returns for a list is a
    non-blank string, bound to the price of a valid entry of the list with
    that title, and the map has at most as many titles as the list has
    items. *)
Theorem price_map_titles (items : list pyval) (w : world)
    (prices : gmap string float) (w' : world) :
  build_price_map (PList items) w = (Return prices, w') ->
  (forall title price,
      prices !! title = Some price ->
      Py.strip title <> ""
      /\ exists item, item ∈ items /\ valid_entry item = Some (title, price))
  /\ (size prices <= length items)%nat.
Proof.
  intros (_ & -> & _)%build_price_map_returns. split.
  - intros title price. rewrite lookup_bound, lookup_empty.
    destruct (last_price title items) as [p|] eqn:Hlast; [|discriminate].
    intros [= ->]. unfold last_price in Hlast.
    apply last_Some_elem_of, list_elem_of_omap in Hlast as (item & Hin & Hitem).
    destruct (valid_entry item) as [[t p]|] eqn:Hvalid; [|discriminate].
    destruct (String.eqb_spec t title) as [->|]; [|discriminate].
    injection Hitem as ->.
    split; [by eapply valid_entry_title|]. by exists item.
  - etrans; [apply size_fold_bind|]. rewrite map_size_empty. simpl.
    apply length_omap_le.
Qed.

(** X2. [build_price_map] on two lists one after the other, the second
    started in the world the first left, returns two maps; on the
    concatenation of the lists it returns their union, a title of the second
    map taking its price from there, and leaves the same world. *)
Theorem catalog_append (items1 items2 : list pyval) (w w1 w2 : world)
    (prices1 prices2 : gmap string float) :
  build_price_map (PList items1) w = (Return prices1, w1) ->
  build_price_map (PList items2) w1 = (Return prices2, w2) ->
  build_price_map (PList (items1 ++ items2)) w = (Return (prices2 ∪ prices1), w2).
Proof.
  intros (Hno1 & -> & ->)%build_price_map_returns
         (Hno2 & -> & ->)%build_price_map_returns.
  apply build_price_map_returns.
  unfold catalog_aborts, bound, catalog_warnings in *.
  rewrite existsb_app, !omap_app, fold_left_app, Hno1, Hno2, emit_emit.
  split; [done|]. split; [|done]. symmetry. apply (fold_bound_union items2).
Qed.

End Returns.

Section Sales_more.
Context `{Py.StrConv}.
Variable prices : gmap string float.

(** In a loop that returns, each record is either kept or skipped. *)
Lemma kept_or_skipped (records : list pyval) :
  sales_abort prices records = false ->
  (length (sold prices records) + length (sale_warnings prices records)
   = length records)%nat.
Proof.
  unfold sales_abort, sold, sale_warnings, omap.
  induction records as [|r records IH]; simpl; [done|].
  destruct (judge_sale prices r); simpl; try discriminate;
    intros Hno; specialize (IH Hno); lia.
Qed.

(** X4. When [compute_total_sales] returns, every record of the list is
    either one of the errors counted or one of the amounts added: the error
    count plus the number of amounts is the length of the list. *)
Theorem records_partition (records : list pyval) (w : world)
    (total : float) (errors : Z) (w' : world) :
  compute_total_sales prices (PList records) w = (Return (total, errors), w') ->
  errors + Z.of_nat (length (contributions prices records))
  = Z.of_nat (length records).
Proof.
  intros (Hno & _ & -> & _)%compute_total_sales_returns.
  destruct (no_abort_sold prices records Hno) as [<- _].
  pose proof (kept_or_skipped records Hno). lia.
Qed.

(** X5. [compute_total_sales] on two lists one after the other returns two
    results; on the concatenation of the lists it returns the sum of the two
    error counts and, as total, the sum continued from the first total with
    the amounts of the second list (not the float sum of the two totals),
    and leaves the same world. *)
Theorem sales_append (records1 records2 : list pyval) (w w1 w2 : world)
    (total1 total2 : float) (errors1 errors2 : Z) :
  compute_total_sales prices (PList records1) w = (Return (total1, errors1), w1) ->
  compute_total_sales prices (PList records2) w1 = (Return (total2, errors2), w2) ->
  compute_total_sales prices (PList (records1 ++ records2)) w
  = (Return (float_sum_from total1 (contributions prices records2),
             errors1 + errors2), w2).
Proof.
  intros (Hno1 & -> & -> & ->)%compute_total_sales_returns
         (Hno2 & _ & -> & ->)%compute_total_sales_returns.
  apply compute_total_sales_returns.
  destruct (no_abort_sold prices records2 Hno2) as [<- _].
  unfold sales_abort, sold, sale_warnings, float_sum, float_sum_from in *.
  rewrite existsb_app, !omap_app, fold_left_app, length_app, Hno1, Hno2, emit_emit.
  repeat split; try done. lia.
Qed.

(** What two records with the same members read come to. *)
Lemma judge_same_sale (r r' : pyval) :
  same_sale r r' ->
  judge_sale prices r' = judge_sale prices r
  \/ exists m m', judge_sale prices r = Skipped m
                  /\ judge_sale prices r' = Skipped m'.
Proof.
  unfold same_sale, judge_sale.
  destruct r, r'; try done; try (intros _; right; by do 2 eexists).
  intros [<- <-].
  destruct (name_of _); [by left|right; by do 2 eexists].
Qed.

(** X6. [compute_total_sales] reads only the [Product] and the [Quantity] of
    a record: two lists whose records agree on these two members, in order,
    give the same total and error count, or raise alike. *)
Theorem sales_members_read (records records' : list pyval) (w : world) :
  Forall2 same_sale records records' ->
  (compute_total_sales prices (PList records) w).1
  = (compute_total_sales prices (PList records') w).1.
Proof.
  intros Hsame. rewrite !compute_total_sales_run. unfold sales_run.
  rewrite !sales_loop_result.
  assert (sales_abort prices records = sales_abort prices records'
          /\ sold prices records = sold prices records'
          /\ length (sale_warnings prices records)
             = length (sale_warnings prices records')) as (-> & -> & ->);
    [|done].
  unfold sales_abort, sold, sale_warnings, omap.
  induction Hsame as [|r r' records records' Hr _ (IH1 & IH2 & IH3)]; simpl;
    [done|].
  destruct (judge_same_sale r r' Hr) as [->|(m & m' & -> & ->)]; simpl.
  - rewrite IH1, IH2. repeat split.
    destruct (skipped (judge_sale prices r)); simpl; by rewrite IH3.
  - by rewrite IH1, IH2, IH3.
Qed.

Lemma no_product_skipped (records : list pyval) :
  Forall no_product records ->
  sales_abort prices records = false
  /\ sold prices records = []
  /\ sale_warnings prices records = map no_product_warning records.
Proof.
  unfold sales_abort, sold, sale_warnings, omap.
  induction 1 as [|r records Hr _ (IH1 & IH2 & IH3)]; simpl; [done|].
  assert (judge_sale prices r = Skipped (no_product_warning r)) as ->.
  { unfold judge_sale, no_product_warning, no_product, Py.get in *.
    destruct r; try reflexivity. by rewrite Hr. }
  simpl. by rewrite IH1, IH2, IH3.
Qed.

(** X7. When no record has a [Product] member (the keys are case-sensitive,
    and a record that is not an object has none), [compute_total_sales]
    sells nothing and counts every record as an error, whatever the prices
    and the other members: on a standard output that takes every warning, as
    [print] is modelled here, it returns 0.0 and as many errors as there are
    records, having printed one warning for each in input order. (The
    [print] of Python can itself raise, on a record whose text it cannot
    make or encode; such runs are outside this model.) *)
Theorem no_product_all_errors (records : list pyval) (w : world) :
  Forall no_product records ->
  compute_total_sales prices (PList records) w
  = (Return (0%float, Z.of_nat (length records)),
     emit (map no_product_warning records) w).
Proof.
  intros (Hno & Hsold & Hwarn)%no_product_skipped.
  apply compute_total_sales_returns.
  by rewrite Hno, Hsold, Hwarn, length_map.
Qed.

End Sales_more.

Section Catalog_more.
Context `{Py.StrConv}.

Lemma judge_same_item (i i' : pyval) :
  same_item i i' ->
  judge_item i' = judge_item i
  \/ exists m m', judge_item i = Skipped m /\ judge_item i' = Skipped m'.
Proof.
  unfold same_item, judge_item.
  destruct i, i'; try done; try (intros _; right; by do 2 eexists).
  intros [<- <-].
  destruct (name_of _); [by left|right; by do 2 eexists].
Qed.

(** X3. [build_price_map] reads only the [title] and the [price] of an item:
    two lists whose items agree on these two members, in order, give the same
    map or raise alike. *)
Theorem catalog_members_read (items items' : list pyval) (w : world) :
  Forall2 same_item items items' ->
  (build_price_map (PList items) w).1 = (build_price_map (PList items') w).1.
Proof.
  intros Hsame. rewrite !build_price_map_run. unfold price_run.
  rewrite !price_loop_result.
  assert (catalog_aborts items = catalog_aborts items'
          /\ bound items = bound items') as (-> & ->); [|done].
  unfold catalog_aborts, bound, omap.
  induction Hsame as [|i i' items items' Hi _ (IH1 & IH2)]; simpl; [done|].
  destruct (judge_same_item i i' Hi) as [->|(m & m' & -> & ->)]; simpl;
    by rewrite IH1, IH2.
Qed.

(** X9. After [build_price_map] has returned a map for a catalogue, a sale
    of a non-blank product with a quantity [>= 0] in range adds the quantity
    times the price of the last valid entry of that product, without a
    warning, and is an unknown-product error when the catalogue has no valid
    entry for it. *)
Theorem sale_at_last_price (items : list pyval) (w w1 : world)
    (prices : gmap string float) (d : gmap string pyval) (product : string)
    (qty : Z) (total : float) (errors : Z) (w2 : world) :
  build_price_map (PList items) w = (Return prices, w1) ->
  name_of (Py.get d "Product") = Some product ->
  Py.to_int (Py.get d "Quantity") = Return qty ->
  0 <= qty ->
  is_infinity (Py.nearest_float qty) = false ->
  add_sale prices (total, errors) (PDict d) w2
  = match last_price product items with
    | Some price =>
        (Return ((total + price * Py.nearest_float qty)%float, errors), w2)
    | None => (Return (total, errors + 1), emit [UnknownProduct product] w2)
    end.
Proof.
  intros (_ & -> & _)%build_price_map_returns Hproduct Hqty Hpos Hfinite.
  rewrite add_sale_judge. unfold judge_sale.
  rewrite Hproduct, Hqty, lookup_bound, lookup_empty.
  destruct (Z.ltb_spec qty 0); [lia|].
  destruct (last_price product items); [|done].
  unfold Py.mul_int, Py.float_of_int. by rewrite Hfinite.
Qed.

End Catalog_more.

Section Run_more.
Context `{Py.StrConv}.

(** Against the empty map no record is kept. *)
Lemma nothing_sold (records : list pyval) : sold ∅ records = [].
Proof.
  unfold sold, omap. induction records as [|r records IH]; simpl; [done|].
  rewrite IH. unfold judge_sale. destruct r; try reflexivity.
  destruct (name_of _); [|reflexivity].
  destruct (Py.to_int _) as [qty|[]]; try reflexivity.
  destruct (qty <? 0); [reflexivity|]. by rewrite lookup_empty.
Qed.

(** X8. Against the empty price map [compute_total_sales] sells nothing:
    what it returns is the total 0.0 and one error for every record, and it
    does return whenever the quantities are in range. *)
Theorem no_prices_no_sales (records : list pyval) (w : world) :
  (forall total errors w',
      compute_total_sales ∅ (PList records) w = (Return (total, errors), w') ->
      total = 0%float /\ errors = Z.of_nat (length records))
  /\ (Forall (fun r => quantity_in_range r = true) records ->
      (compute_total_sales ∅ (PList records) w).1
      = Return (0%float, Z.of_nat (length records))).
Proof.
  split.
  - intros total errors w' (Hno & -> & -> & _)%compute_total_sales_returns.
    pose proof (kept_or_skipped ∅ records Hno) as Hlen.
    rewrite nothing_sold in *. split; [done|]. simpl in Hlen. by rewrite Hlen.
  - intros Hno%(in_range_no_abort ∅).
    rewrite compute_total_sales_run. unfold sales_run.
    rewrite sales_loop_result, Hno.
    pose proof (kept_or_skipped ∅ records Hno) as Hlen.
    rewrite nothing_sold in *. simpl in Hlen. by rewrite Hlen.
Qed.

(** X10. With any number of command-line words other than three, [main]
    prints the usage line and returns 1; it prints nothing else, whatever
    the input files hold, and writes nothing. *)
Theorem wrong_argument_count (inputs : string -> read_result)
    (clock : float * float) (argv : list string) (w : world) :
  length argv <> 3%nat ->
  main inputs clock argv w = (Return 1, emit [Usage] w).
Proof.
  intros Hlen.
  destruct argv as [|prog [|catalog_path [|sales_path [|extra argv]]]];
    try reflexivity.
  by destruct Hlen.
Qed.

(** X11. [main] writes the results file when it returns 0 and at no other
    end modelled here: a run that returns 0 has changed the results file
    alone, to the text it printed last; a run that returns 1, or that an
    [OverflowError] leaves, has left every file as it was. *)
Theorem main_outcomes (inputs : string -> read_result) (clock : float * float)
    (argv : list string) (w : world) :
  let run := main inputs clock argv w in
  (run.1 = Return 0 ->
   exists text, disk run.2 = <[results_file := text]> (disk w)
                /\ last (stdout run.2) = Some (Text text))
  /\ (run.1 = Return 1 \/ run.1 = Raise OverflowError -> disk run.2 = disk w).
Proof.
  intros run. subst run. rewrite main_main_run. simpl.
  unfold main_run.
  destruct argv as [|prog [|catalog_path [|sales_path [|extra argv]]]];
    try (split; [discriminate|reflexivity]).
  destruct (both_loaded _ _); [|split; [discriminate|reflexivity]].
  destruct (price_run _) as [[prices|e] ms];
    [|split; [discriminate|reflexivity]].
  destruct (sales_run _ _) as [[[total errors]|e] ms'];
    [|split; [discriminate|reflexivity]].
  simpl. split.
  - intros _. eexists. split; [reflexivity|].
    by rewrite !app_assoc, last_snoc.
  - intros [Hone|Hraise]; discriminate.
Qed.

(** X12. When either input file holds the JSON document [null], [main]
    takes it for a failed load: it prints the diagnostic of the other file,
    if that one failed, then that the inputs could not be loaded, returns 1
    and neither indexes the catalogue nor writes the results file. *)
Theorem null_document_not_loaded (inputs : string -> read_result)
    (clock : float * float) (prog catalog_path sales_path : string) (w : world) :
  inputs catalog_path = Parsed PNone \/ inputs sales_path = Parsed PNone ->
  main inputs clock [prog; catalog_path; sales_path] w
  = (Return 1,
     emit (load_diagnostic catalog_path (inputs catalog_path)
           ++ load_diagnostic sales_path (inputs sales_path)
           ++ [InputsNotLoaded])%list w).
Proof.
  intros Hnull. rewrite main_main_run. unfold main_run.
  assert (both_loaded (loaded (inputs catalog_path))
                      (loaded (inputs sales_path)) = false) as ->.
  { unfold both_loaded. destruct Hnull as [->| ->]; simpl; [done|].
    by rewrite orb_true_r. }
  simpl. by rewrite <- app_assoc.
Qed.

(** X13. When both files hold lists, with prices and quantities in range,
    [main] returns 0 after printing the catalogue warnings, the sales
    warnings and the report, in this order, and writing the report: the
    report of the sum of the amounts and of the number of failing records
    against the map that prices each title by its last valid entry, with the
    difference of the two clock readings. *)
Theorem main_reports_totals (inputs : string -> read_result)
    (clock : float * float) (prog catalog_path sales_path : string)
    (items records : list pyval) (w : world) :
  inputs catalog_path = Parsed (PList items) ->
  inputs sales_path = Parsed (PList records) ->
  Forall (fun i => price_in_range i = true) items ->
  Forall (fun r => quantity_in_range r = true) records ->
  exists prices : gmap string float,
    (forall title, prices !! title = last_price title items)
    /\ let report :=
         format_results (float_sum (contributions prices records))
                        (failures prices records) (clock.2 - clock.1)%float in
       main inputs clock [prog; catalog_path; sales_path] w
       = (Return 0,
          after (catalog_warnings items ++ sale_warnings prices records
                 ++ [Text report])%list (Some report) w).
Proof.
  intros Hc Hs Hitems%in_range_no_item_abort Hrecords.
  exists (fold_left bind_price (bound items) ∅). split.
  { intros title. rewrite lookup_bound, lookup_empty.
    by destruct (last_price title items). }
  pose proof (in_range_no_abort (fold_left bind_price (bound items) ∅)
                records Hrecords) as Hno.
  destruct (no_abort_sold _ records Hno) as [Hsold Hcount].
  intros report. subst report.
  rewrite main_main_run. unfold main_run. rewrite Hc, Hs. simpl.
  pose proof (price_loop_result items ∅) as Hp1.
  pose proof (price_loop_warnings items ∅ Hitems) as Hp2.
  rewrite Hitems in Hp1.
  destruct (run_loop judge_item id bind_price items ∅) as [r ms].
  simpl in Hp1, Hp2. subst r ms.
  pose proof (sales_loop_result (fold_left bind_price (bound items) ∅)
                records 0 0) as Hs1.
  pose proof (sales_loop_warnings (fold_left bind_price (bound items) ∅)
                records (0%float, 0) Hno) as Hs2.
  rewrite Hno in Hs1.
  destruct (run_loop (judge_sale _) count_error add_amount records _) as [r ms].
  simpl in Hs1, Hs2. subst r ms.
  simpl. by rewrite Hsold, Hcount.
Qed.

End Run_more.

(** X14. [write_results] twice to one file is the second write alone: the
    file holds the second text only, every other file is as before, and
    nothing is printed. *)
Theorem write_results_twice (text1 text2 filename other : string) (w : world) :
  (write_results text1 filename;; write_results text2 filename) w
  = write_results text2 filename w
  /\ disk (write_results text2 filename w).2 !! filename = Some text2
  /\ (other <> filename ->
      disk (write_results text2 filename w).2 !! other = disk w !! other)
  /\ stdout (write_results text2 filename w).2 = stdout w.
Proof.
  unfold write_results, mbind, io_bind; simpl.
  rewrite insert_insert_eq, lookup_insert_eq. repeat split.
  intros Hne. by rewrite lookup_insert_ne.
Qed.

(** * The program on sample inputs

    The parsers are those of ASCII literals from here on. *)

#[local] Existing Instance Ascii_literals.conv.

(** The testable properties of the specification: empty inputs, a basic
    match, and a price that is not a number. *)
Example empty_inputs :
  main (two_files (Parsed (PList [])) (Parsed (PList [])))
       (1%float, 1.25%float) command_line blank_world
  = (Return 0,
     after [Text (format_results 0 0 0.25)] (Some (format_results 0 0 0.25))
           blank_world).
Proof. vm_compute. reflexivity. Qed.

Example basic_match :
  compute_total_sales {[ "A" := 10%float ]} (PList [sale "A" (PInt 3)]) blank_world
  = (Return (30%float, 0), blank_world)
  /\ build_price_map (PList [item "A" (PInt 10)]) blank_world
     = (Return {[ "A" := 10%float ]}, blank_world)
  /\ Py.format_fixed 2 30 = "30.00".
Proof. repeat split; vm_compute; reflexivity. Qed.

Example price_not_a_number :
  build_price_map (PList [item "A" (PStr "abc")]) blank_world
  = (Return ∅, emit [InvalidPrice "A" (PStr "abc")] blank_world)
  /\ compute_total_sales ∅ (PList [sale "A" (PInt 1)]) blank_world
     = (Return (0%float, 1), emit [UnknownProduct "A"] blank_world).
Proof. split; vm_compute; reflexivity. Qed.

(** C3. [build_price_map] on the catalogue [[{"title": "A", "price": n}]]
    with [n] the integer [10 ** 400]: [float(n)] raises [OverflowError],
    which the handler for [TypeError] and [ValueError] does not catch, so the
    call raises instead of returning a map. *)
Theorem oversize_price_escapes :
  build_price_map (PList [item "A" (PInt (10 ^ 400))]) blank_world
  = (Raise OverflowError, blank_world).
Proof. vm_compute. reflexivity. Qed.

(** The same in [compute_total_sales]: [int(x)] raises [OverflowError] on an
    infinite float, which JSON texts such as [1e999] and [Infinity] load as. *)
Example infinite_quantity_escapes :
  compute_total_sales sample_prices (PList [sale "A" (PFloat infinity)]) blank_world
  = (Raise OverflowError, blank_world).
Proof. vm_compute. reflexivity. Qed.

(** An integer beyond the range of a float escapes from the product
    [price * qty]. *)
Example oversize_quantity_escapes :
  compute_total_sales sample_prices (PList [sale "A" (PInt (10 ^ 400))]) blank_world
  = (Raise OverflowError, blank_world).
Proof. vm_compute. reflexivity. Qed.

(** C1, as stated, fails: with a price for the title made of two blanks, a
    sale of that product is an object with a non-empty string [Product], an
    integer quantity [>= 0] and a price, so the sum of the claim is 2.0 with
    no error; [compute_total_sales] returns 0.0 and one error. *)
Lemma blank_product_is_an_error :
  (compute_total_sales blank_prices (PList [sale "  " (PInt 1)]) blank_world).1
  = Return (0%float, 1)
  /\ (float_sum (amounts_by (amount_nonempty blank_prices) [sale "  " (PInt 1)]),
      failures_by (amount_nonempty blank_prices) [sale "  " (PInt 1)])
     = (2%float, 0).
Proof. split; vm_compute; reflexivity. Qed.

(** C2, as stated, fails: a catalogue payload [null] is not a sequence, and
    the run does not go on to the report: it prints that the inputs could
    not be loaded and returns 1. *)
Lemma null_catalog_exits_1 :
  Py.is_list PNone = false
  /\ main (two_files (Parsed PNone) (Parsed (PList sample_sales)))
          (1%float, 1.25%float) command_line blank_world
     = (Return 1, emit [InputsNotLoaded] blank_world).
Proof. split; vm_compute; reflexivity. Qed.

(** C4, as stated, fails: the quantity 2.5 is not an integer, and the record
    is not skipped: [int(2.5)] is 2, nothing is printed, the error count
    stays and the total grows by [10.0 * 2]. *)
Lemma fractional_quantity_is_sold :
  natural_quantity (PFloat 2.5) = false
  /\ add_sale sample_prices (0%float, 0) (sale "A" (PFloat 2.5)) blank_world
     = (Return (20%float, 0), blank_world).
Proof. split; vm_compute; reflexivity. Qed.

(** C6, as stated, fails: the sales of 0.1, 0.2 and 0.3 total
    0.6000000000000001 in this order and 0.6 in the reverse order. *)
Lemma float_sum_depends_on_order :
  Permutation cents_sales (rev cents_sales)
  /\ (compute_total_sales cents_prices (PList cents_sales) blank_world).1
     = Return (0.6000000000000001%float, 0)
  /\ (compute_total_sales cents_prices (PList (rev cents_sales)) blank_world).1
     = Return (0.6%float, 0)
  /\ 0.6000000000000001%float <> 0.6%float.
Proof.
  split; [apply Permutation_rev|].
  split; [vm_compute; reflexivity|].
  split; [vm_compute; reflexivity|].
  intros Heq. apply (f_equal Prim2SF) in Heq. vm_compute in Heq. discriminate.
Qed.

(** The sample sales against the sample prices: 55.0 and three errors. *)
Lemma sample_sales_sums :
  Forall (fun r => quantity_in_range r = true) sample_sales
  /\ compute_total_sales sample_prices (PList sample_sales) blank_world
     = (Return (55%float, 3),
        emit [UnknownProduct "C"; NegativeQuantity "A" (-1); SaleNotObject (PInt 7)]
             blank_world).
Proof.
  assert (Hrange : Forall (fun r => quantity_in_range r = true) sample_sales)
    by (repeat constructor).
  split; [exact Hrange|].
  destruct (compute_total_sales_sums sample_prices sample_sales blank_world)
    as [Hspec Hreturns].
  destruct (Hreturns Hrange) as (total & errors & Hrun).
  destruct (compute_total_sales sample_prices (PList sample_sales) blank_world)
    as [r w'].
  simpl in Hrun; subst r.
  destruct (Hspec total errors w' eq_refl) as (-> & -> & -> & _).
  vm_compute. reflexivity.
Defined.

(** A sale of -1 after the sample sales: one more error, the same total. *)
Lemma negative_quantity_skipped :
  quantity_refused (PInt (-1)) = true
  /\ exists m,
      add_sale sample_prices (55%float, 3) (sale "A" (PInt (-1))) blank_world
      = (Return (55%float, 3 + 1), emit [m] blank_world).
Proof.
  split; [reflexivity|].
  assert (Hq : quantity_refused
                 (Py.get (list_to_map [("Product", PStr "A"); ("Quantity", PInt (-1))])
                         "Quantity") = true)
    by (vm_compute; reflexivity).
  apply (proj1 (refused_quantity_skipped sample_prices _ Hq)).
Defined.

(** The sample sales in reverse order: the same three errors, the amounts
    20.0, 5.0 and 30.0 instead of 30.0, 5.0 and 20.0. *)
Lemma sample_sales_reversed :
  (compute_total_sales sample_prices (PList sample_sales) blank_world).1
  = Return (float_sum [30; 5; 20]%float, 3)
  /\ (compute_total_sales sample_prices (PList (rev sample_sales)) blank_world).1
     = Return (float_sum [20; 5; 30]%float, 3).
Proof.
  destruct (permuted_sales sample_prices sample_sales (rev sample_sales)
              blank_world (Permutation_rev sample_sales))
    as [[Habort _]|(Hrun & Hrun' & _ & _)].
  - vm_compute in Habort. discriminate.
  - rewrite Hrun, Hrun'. split; vm_compute; reflexivity.
Defined.

(** The sample catalogue: the second price of A wins. *)
Lemma sample_catalog_prices :
  exists prices,
    (build_price_map (PList sample_catalog) blank_world).1 = Return prices
    /\ prices !! "A" = Some 10%float
    /\ prices !! "B" = Some 2.5%float
    /\ prices !! "C" = None.
Proof.
  destruct (last_write_wins sample_catalog blank_world) as [Hmap Hret].
  destruct Hret as [prices Hp]; [repeat constructor|].
  exists prices. split; [exact Hp|].
  destruct (build_price_map (PList sample_catalog) blank_world) as [r w'].
  simpl in Hp; subst r.
  destruct (Hmap prices w' eq_refl) as (Hlook & _ & _).
  rewrite !Hlook. vm_compute. auto.
Defined.

(** A run without the catalogue file. *)
Lemma missing_catalog_run :
  main (two_files FileNotFoundError (Parsed (PList sample_sales)))
       (1%float, 1.25%float) command_line blank_world
  = (Return 1,
     emit [FileNotFound "priceCatalogue.json"; InputsNotLoaded] blank_world).
Proof.
  unfold command_line.
  destruct (load_failure_exits_1
              (two_files FileNotFoundError (Parsed (PList sample_sales)))
              (1%float, 1.25%float)
              "compute_sales.py" "priceCatalogue.json" "salesRecord.json"
              blank_world) as (Hrun & _); [left; reflexivity|].
  rewrite Hrun. reflexivity.
Defined.

(** A run on a sales payload that is an object. *)
Lemma object_sales_run :
  exists ms,
    main (two_files (Parsed (PList sample_catalog)) (Parsed (obj [])))
         (1%float, 1.25%float) command_line blank_world
    = (Return 0,
       after (ms ++ [Text (format_results 0 1 0.25)])
             (Some (format_results 0 1 0.25)) blank_world).
Proof.
  unfold command_line.
  destruct (degraded_run
              (two_files (Parsed (PList sample_catalog)) (Parsed (obj [])))
              (1%float, 1.25%float)
              "compute_sales.py" "priceCatalogue.json" "salesRecord.json"
              (PList sample_catalog) (obj []) blank_world)
    as (_ & _ & total & errors & ms & Hrun & _ & Htotal & _);
    try reflexivity; [right; reflexivity|].
  destruct (Htotal eq_refl) as [-> ->].
  exists ms. rewrite Hrun. reflexivity.
Defined.

(** Two runs on the sample inputs, of 0.25 and 0.5 seconds. *)
Lemma sample_rerun :
  let inputs := two_files (Parsed (PList sample_catalog)) (Parsed (PList sample_sales)) in
  let first := main inputs (1%float, 1.25%float) command_line blank_world in
  let second := main inputs (5%float, 5.5%float) command_line first.2 in
  second.1 = Return 0
  /\ exists total errors,
      (compute_total_sales sample_prices (PList sample_sales) first.2).1
      = Return (total, errors)
      /\ disk first.2 !! results_file = Some (format_results total errors 0.25)
      /\ disk second.2 !! results_file = Some (format_results total errors 0.5).
Proof.
  intros inputs first second.
  destruct (rerun_same_totals inputs inputs (1%float, 1.25%float)
              (5%float, 5.5%float)
              "compute_sales.py" "priceCatalogue.json" "salesRecord.json"
              blank_world eq_refl eq_refl)
    as [Hsame Hreports].
  assert (Hfirst : first.1 = Return 0) by (vm_compute; reflexivity).
  split.
  - subst second first. unfold command_line. rewrite Hsame. exact Hfirst.
  - destruct (Hreports Hfirst)
      as (prices & total & errors & Hcomputed & Hdisk & _ & Hdisk' & _).
    exists total, errors.
    destruct (Hcomputed first.2) as [Hprices Htotal].
    assert (prices = sample_prices) as ->.
    { assert (Hmap : Return prices = Return sample_prices :> outcome _)
        by (rewrite <- Hprices; vm_compute; reflexivity).
      by injection Hmap. }
    split; [exact Htotal|]. split; [exact Hdisk|exact Hdisk'].
Defined.

(** The report of a total of 2.675, three errors and a quarter of a second:
    the total is the double below 2.675, so it is shown as 2.67. *)
Lemma sample_report :
  Z.abs 3 < 10 ^ 4300
  /\ format_results_call 2.675 3 0.25
     = Return ("=== Sales Results ===" +:+ Py.nl
               +:+ "Total Sales: $2.67" +:+ Py.nl
               +:+ "Errors/Warnings: 3" +:+ Py.nl
               +:+ "Execution Time: 0.250000 seconds" +:+ Py.nl)
  /\ (print (Text (format_results 2.675 3 0.25));;
      write_results (format_results 2.675 3 0.25) results_file)
       (World [] {[ results_file := "old" ]})
     = (Return tt,
        World [Text (format_results 2.675 3 0.25)]
              {[ results_file := format_results 2.675 3 0.25 ]}).
Proof.
  assert (Hlimit : Z.abs 3 < 10 ^ 4300)
    by (apply Z.ltb_lt; vm_compute; reflexivity).
  destruct (report_block 2.675 3 0.25 (World [] {[ results_file := "old" ]}) Hlimit)
    as (Hcall & _ & _ & _ & Hwritten & _).
  split; [exact Hlimit|]. split.
  - rewrite Hcall. vm_compute. reflexivity.
  - rewrite Hwritten. unfold after, emit. simpl.
    by rewrite insert_singleton.
Defined.

(** The report of a count of 4301 digits is not produced: the call raises. *)
Lemma count_beyond_limit_raises :
  format_results_call 0 (10 ^ 4300) 0 = Raise ValueError.
Proof. vm_compute. reflexivity. Qed.

(** ** The further properties on sample inputs *)

(** The titles of the sample price map. *)
Lemma sample_price_map_titles :
  Py.strip "A" <> "" /\ (size sample_prices <= length sample_catalog)%nat.
Proof.
  assert (Hrun : build_price_map (PList sample_catalog) blank_world
                 = (Return sample_prices,
                    (build_price_map (PList sample_catalog) blank_world).2))
    by (vm_compute; reflexivity).
  destruct (price_map_titles sample_catalog blank_world sample_prices _ Hrun)
    as [Htitles Hsize].
  split; [|exact Hsize].
  apply (Htitles "A" 10%float). vm_compute. reflexivity.
Defined.

(** The sample catalogue followed by the second one: B is priced 3.0. *)
Lemma sample_catalogs_appended :
  (build_price_map (PList (sample_catalog ++ more_catalog)) blank_world).1
  = Return (more_prices ∪ sample_prices)
  /\ (more_prices ∪ sample_prices) !! "B" = Some 3%float.
Proof.
  pose (w1 := (build_price_map (PList sample_catalog) blank_world).2).
  pose (w2 := (build_price_map (PList more_catalog) w1).2).
  assert (H1 : build_price_map (PList sample_catalog) blank_world
               = (Return sample_prices, w1)) by (vm_compute; reflexivity).
  assert (H2 : build_price_map (PList more_catalog) w1
               = (Return more_prices, w2)) by (vm_compute; reflexivity).
  rewrite (catalog_append sample_catalog more_catalog blank_world w1 w2
             sample_prices more_prices H1 H2).
  split; [reflexivity|vm_compute; reflexivity].
Defined.

(** An item with a stock member is read as the item without it. *)
Lemma stocked_item_read :
  (build_price_map (PList [stocked_item "A" (PInt 10) 4]) blank_world).1
  = (build_price_map (PList [item "A" (PInt 10)]) blank_world).1.
Proof.
  apply catalog_members_read.
  constructor; [|constructor]. vm_compute. split; reflexivity.
Defined.

(** The six sample sales: three errors and three amounts. *)
Lemma sample_sales_partition :
  3 + Z.of_nat (length (contributions sample_prices sample_sales))
  = Z.of_nat (length sample_sales).
Proof.
  assert (Hrun : compute_total_sales sample_prices (PList sample_sales) blank_world
                 = (Return (55%float, 3),
                    (compute_total_sales sample_prices (PList sample_sales)
                       blank_world).2))
    by (vm_compute; reflexivity).
  exact (records_partition sample_prices sample_sales blank_world _ _ _ Hrun).
Defined.

(** The sample sales followed by two more: 55.0 + 5.0 and four errors. *)
Lemma sample_sales_appended :
  (compute_total_sales sample_prices (PList (sample_sales ++ more_sales))
     blank_world).1
  = Return (60%float, 4).
Proof.
  pose (w1 := (compute_total_sales sample_prices (PList sample_sales)
                 blank_world).2).
  pose (w2 := (compute_total_sales sample_prices (PList more_sales) w1).2).
  assert (H1 : compute_total_sales sample_prices (PList sample_sales) blank_world
               = (Return (55%float, 3), w1)) by (vm_compute; reflexivity).
  assert (H2 : compute_total_sales sample_prices (PList more_sales) w1
               = (Return (5%float, 1), w2)) by (vm_compute; reflexivity).
  rewrite (sales_append sample_prices sample_sales more_sales blank_world w1 w2
             _ _ _ _ H1 H2).
  vm_compute. reflexivity.
Defined.

(** A dated sale is read as the sale without the date. *)
Lemma dated_sale_read :
  (compute_total_sales sample_prices
     (PList [dated_sale "2024-01-31" "A" (PInt 3)]) blank_world).1
  = (compute_total_sales sample_prices (PList [sale "A" (PInt 3)]) blank_world).1.
Proof.
  apply sales_members_read.
  constructor; [|constructor]. vm_compute. split; reflexivity.
Defined.

(** Sales written with lower-case keys are all errors. *)
Lemma lower_case_sales_rejected :
  compute_total_sales sample_prices
    (PList [lower_case_sale "A" (PInt 3); PInt 7]) blank_world
  = (Return (0%float, 2),
     emit [SaleNoProduct (lower_case_sale "A" (PInt 3)); SaleNotObject (PInt 7)]
          blank_world).
Proof.
  apply (no_product_all_errors sample_prices
           [lower_case_sale "A" (PInt 3); PInt 7] blank_world).
  constructor; [vm_compute; reflexivity|].
  constructor; [exact I|constructor].
Defined.

(** A sale of A against the sample catalogue: three at the second price. *)
Lemma sample_sale_at_last_price :
  add_sale sample_prices (0%float, 0) (sale "A" (PInt 3)) blank_world
  = (Return (30%float, 0), blank_world).
Proof.
  assert (Hrun : build_price_map (PList sample_catalog) blank_world
                 = (Return sample_prices,
                    (build_price_map (PList sample_catalog) blank_world).2))
    by (vm_compute; reflexivity).
  assert (Hproduct :
            name_of (Py.get (list_to_map [("Product", PStr "A"); ("Quantity", PInt 3)])
                            "Product") = Some "A")
    by (vm_compute; reflexivity).
  assert (Hqty :
            Py.to_int (Py.get (list_to_map [("Product", PStr "A"); ("Quantity", PInt 3)])
                              "Quantity") = Return 3)
    by (vm_compute; reflexivity).
  assert (Hfinite : is_infinity (Py.nearest_float 3) = false)
    by (vm_compute; reflexivity).
  unfold sale, obj.
  rewrite (sale_at_last_price sample_catalog blank_world _ sample_prices _ "A" 3
             0 0 blank_world Hrun Hproduct Hqty ltac:(lia) Hfinite).
  vm_compute. reflexivity.
Defined.

(** A command line with one argument. *)
Lemma one_argument_run :
  main (two_files (Parsed (PList sample_catalog)) (Parsed (PList sample_sales)))
       (1%float, 1.25%float) ["compute_sales.py"; "priceCatalogue.json"] blank_world
  = (Return 1, emit [Usage] blank_world).
Proof. apply wrong_argument_count. simpl. lia. Defined.

(** A sales file that holds [null]. *)
Lemma null_sales_run :
  main (two_files (Parsed (PList sample_catalog)) (Parsed PNone))
       (1%float, 1.25%float) command_line blank_world
  = (Return 1, emit [InputsNotLoaded] blank_world).
Proof.
  unfold command_line.
  rewrite (null_document_not_loaded
             (two_files (Parsed (PList sample_catalog)) (Parsed PNone))
             (1%float, 1.25%float)
             "compute_sales.py" "priceCatalogue.json" "salesRecord.json"
             blank_world (or_intror eq_refl)).
  reflexivity.
Defined.

(** The run on the sample inputs changes the results file alone; the run
    with one command-line word leaves the results file as it was. *)
Lemma sample_run_writes :
  (exists text,
      disk (main (two_files (Parsed (PList sample_catalog)) (Parsed (PList sample_sales)))
                 (1%float, 1.25%float) command_line
                 (World [] {[ "notes.txt" := "kept" ]})).2
      = <[results_file := text]> {[ "notes.txt" := "kept" ]})
  /\ disk (main (two_files (Parsed (PList sample_catalog)) (Parsed (PList sample_sales)))
                (1%float, 1.25%float) ["compute_sales.py"]
                (World [] {[ results_file := "old" ]})).2
     = {[ results_file := "old" ]}.
Proof.
  split.
  - pose proof (main_outcomes
                  (two_files (Parsed (PList sample_catalog)) (Parsed (PList sample_sales)))
                  (1%float, 1.25%float) command_line
                  (World [] {[ "notes.txt" := "kept" ]})) as Hrun.
    cbv zeta in Hrun. destruct Hrun as [Hzero _].
    destruct Hzero as (text & Hdisk & _); [vm_compute; reflexivity|].
    by exists text.
  - pose proof (main_outcomes
                  (two_files (Parsed (PList sample_catalog)) (Parsed (PList sample_sales)))
                  (1%float, 1.25%float) ["compute_sales.py"]
                  (World [] {[ results_file := "old" ]})) as Hrun.
    cbv zeta in Hrun. destruct Hrun as [_ Hother].
    apply Hother. left. reflexivity.
Defined.

(** The run on the sample inputs ends with status 0, A priced 10.0. *)
Lemma sample_run_report :
  exists prices : gmap string float,
    prices !! "A" = Some 10%float
    /\ prices !! "C" = None
    /\ (main (two_files (Parsed (PList sample_catalog)) (Parsed (PList sample_sales)))
             (1%float, 1.25%float) command_line blank_world).1 = Return 0.
Proof.
  destruct (main_reports_totals
              (two_files (Parsed (PList sample_catalog)) (Parsed (PList sample_sales)))
              (1%float, 1.25%float)
              "compute_sales.py" "priceCatalogue.json" "salesRecord.json"
              sample_catalog sample_sales blank_world)
    as (prices & Hlook & Hrun);
    [reflexivity|reflexivity|repeat constructor|repeat constructor|].
  cbv zeta in Hrun. exists prices.
  split; [rewrite Hlook; vm_compute; reflexivity|].
  split; [rewrite Hlook; vm_compute; reflexivity|].
  unfold command_line. by rewrite Hrun.
Defined.
